(** * CarryVault: the record store facade, the alert engine and the export
      formatter of [app.js], embedded and verified.

    The embedding follows the methods of [class CarryVaultApp]:
    - JavaScript numbers are exact rationals or [NaN]: every number the
      program computes is a difference of two time values divided by the
      number of milliseconds of a day, compared with 30 and 90 and rounded
      up; IEEE rounding of that quotient is not modelled;
    - the host functions [Date.parse] and [Date.prototype.toISOString] are
      the fields of [Host]; the results hold for every host, and
      [Iso8601.host] is an instance, in the time zone UTC, for the sample
      data: it reads the date-only form [YYYY-MM-DD] that an
      [<input type="date">] produces, the form that [toISOString] writes,
      and [M/D/YYYY];
    - the clock ([Date.now()], [new Date()]) is read once per operation and
      is the operation's argument [now], in milliseconds since the epoch;
    - IndexedDB is a record of keyed object stores ([gmap]); [getAll]
      gives the records in ascending order of their keys; a request ends
      in [onsuccess] or [onerror], and a rejected promise is [Thrown];
      [indexedDB.open] itself may throw ([OpenAttempt]);
    - the DOM is the record [View] of what each element shows;
    - [updateComplianceInfo] declares a constant twice, so its text does not
      fix what it does: the class [Reading] stands for what it does, and
      the results hold for every reading. *)

From Stdlib Require Import ZArith QArith Qround List Ascii String Lia Lqa.
From stdpp Require Import base option list gmap strings pretty sorting.

Open Scope string_scope.
Open Scope list_scope.
Open Scope Z_scope.

(** ** JavaScript values *)

(** A number: [NaN] or a rational. *)
Inductive number : Type :=
  | NaN
  | Num (q : Q).

(** What [Math.ceil] returns: an integer, or [NaN]. *)
Inductive integral : Type :=
  | INaN
  | Int (z : Z).

(** [a - b] *)
Definition num_sub (a b : number) : number :=
  match a, b with
  | Num x, Num y => Num (Qminus x y)
  | _, _ => NaN
  end.

(** [a / d] for a positive constant [d] *)
Definition num_div (a : number) (d : positive) : number :=
  match a with
  | Num x => Num (Qdiv x (inject_Z (Zpos d)))
  | NaN => NaN
  end.

(** [a <= b]: every comparison with [NaN] is false *)
Definition num_le (a b : number) : bool :=
  match a, b with
  | Num x, Num y => Qle_bool x y
  | _, _ => false
  end.

Definition Math_ceil (a : number) : integral :=
  match a with
  | Num x => Int (Qceiling x)
  | NaN => INaN
  end.

(** The string a template literal inserts for [Math.ceil(..)]; the
    negative zero that [Math.ceil] gives on (-1, 0) prints as [0] too. *)
Definition ToString (i : integral) : string :=
  match i with
  | Int z => pretty z
  | INaN => "NaN"
  end.

(** [!!s] for a string: only the empty string is falsy. *)
Definition truthy (s : string) : bool :=
  match s with
  | EmptyString => false
  | String _ _ => true
  end.

(** [a || b] on strings *)
Definition or_else (a b : string) : string :=
  if truthy a then a else b.

(** ** The host *)

Class Host : Type := {
  (** the time value of [new Date(s)]: milliseconds since the epoch, or
      [NaN] for an invalid date *)
  Date_parse : string -> number;
  (** [new Date(t).toISOString()] *)
  toISOString : Z -> string
}.

(** [new Date()] read at clock value [now] *)
Definition Date_at (now : Z) : number := Num (inject_Z now).

(** [s.split('T')[0]] *)
Fixpoint split_T_0 (s : string) : string :=
  match s with
  | EmptyString => EmptyString
  | String c rest =>
      if Ascii.eqb c "T"%char then EmptyString else String c (split_T_0 rest)
  end.

(** A host for ISO 8601 dates in UTC. *)
Module Iso8601.

Definition digit (c : ascii) : option Z :=
  let n := Z.of_nat (nat_of_ascii c) in
  if (48 <=? n) && (n <=? 57) then Some (n - 48) else None.

Fixpoint digits (acc : Z) (cs : list ascii) : option Z :=
  match cs with
  | [] => Some acc
  | c :: cs' =>
      match digit c with
      | Some d => digits (10 * acc + d) cs'
      | None => None
      end
  end.

Definition isLeap (y : Z) : bool :=
  ((y mod 4 =? 0) && negb (y mod 100 =? 0)) || (y mod 400 =? 0).

Definition daysInMonth (y m : Z) : Z :=
  if m =? 2 then (if isLeap y then 29 else 28)
  else if (m =? 4) || (m =? 6) || (m =? 9) || (m =? 11) then 30
  else 31.

(** Days from 1970-01-01 to the day [y]-[m]-[d] of the proleptic
    Gregorian calendar. *)
Definition daysFromCivil (y m d : Z) : Z :=
  let y' := if m <=? 2 then y - 1 else y in
  let era := y' / 400 in
  let yoe := y' - era * 400 in
  let mp := if 2 <? m then m - 3 else m + 9 in
  let doy := (153 * mp + 2) / 5 + d - 1 in
  let doe := yoe * 365 + yoe / 4 - yoe / 100 + doy in
  era * 146097 + doe - 719468.

(** The inverse: year, month and day of a day number. *)
Definition civilFromDays (days : Z) : Z * Z * Z :=
  let z := days + 719468 in
  let era := z / 146097 in
  let doe := z - era * 146097 in
  let yoe := (doe - doe / 1460 + doe / 36524 - doe / 146096) / 365 in
  let doy := doe - (365 * yoe + yoe / 4 - yoe / 100) in
  let mp := (5 * doy + 2) / 153 in
  let d := doy - (153 * mp + 2) / 5 + 1 in
  let m := if mp <? 10 then mp + 3 else mp - 9 in
  let y := yoe + era * 400 + (if m <=? 2 then 1 else 0) in
  (y, m, d).

Definition msPerDay : Z := 86400000.

(** The day number of a date. The month is from 1 to 12 and the day from 1
    to 31; a day past the end of its month counts on into the next month,
    as V8 has it ([2026-02-30] is March 2). *)
Definition dayNumber (y m d : Z) : option Z :=
  if (1 <=? m) && (m <=? 12) && (1 <=? d) && (d <=? 31)
  then Some (daysFromCivil y m 1 + (d - 1))
  else None.

(** The milliseconds of a time of day; [24:00:00.000] is the end of the
    day. *)
Definition timeOfDay (h mi sec ms : Z) : option Z :=
  if ((h <=? 23) && (mi <=? 59) && (sec <=? 59)) ||
     ((h =? 24) && (mi =? 0) && (sec =? 0) && (ms =? 0))
  then Some (h * 3600000 + mi * 60000 + sec * 1000 + ms)
  else None.

(** One or two digits. *)
Definition shortField (cs : list ascii) : option Z :=
  match cs with
  | [_] | [_; _] => digits 0 cs
  | _ => None
  end.

Fixpoint splitOn (sep : ascii) (cs : list ascii) : list (list ascii) :=
  match cs with
  | [] => [[]]
  | c :: cs' =>
      if Ascii.eqb c sep then [] :: splitOn sep cs'
      else
        match splitOn sep cs' with
        | field :: fields => (c :: field) :: fields
        | [] => [[c]]
        end
  end.

(** [Date.parse] of a host in the time zone UTC, on three forms of
    strings: the date [YYYY-MM-DD], which is midnight UTC of that day; the
    date and time [YYYY-MM-DDTHH:mm:ss.sssZ] that [toISOString] writes; and
    the date [M/D/YYYY], which is midnight local time. The dates of the
    witnesses and examples have these forms. On every other string this
    host answers [NaN]; an engine reads some of them as dates, by rules of
    its own. *)
Definition parse (s : string) : number :=
  let date (y m d : list ascii) (time : option Z) : number :=
    match digits 0 y, digits 0 m, digits 0 d, time with
    | Some y, Some m, Some d, Some ms =>
        match dayNumber y m d with
        | Some days => Num (inject_Z (days * msPerDay + ms))
        | None => NaN
        end
    | _, _, _, _ => NaN
    end in
  match list_ascii_of_string s with
  | [y1; y2; y3; y4; "-"%char; m1; m2; "-"%char; d1; d2] =>
      date [y1; y2; y3; y4] [m1; m2] [d1; d2] (Some 0)
  | [y1; y2; y3; y4; "-"%char; m1; m2; "-"%char; d1; d2; "T"%char;
     h1; h2; ":"%char; i1; i2; ":"%char; s1; s2; "."%char; f1; f2; f3; "Z"%char] =>
      date [y1; y2; y3; y4] [m1; m2] [d1; d2]
        (match digits 0 [h1; h2], digits 0 [i1; i2], digits 0 [s1; s2],
               digits 0 [f1; f2; f3] with
         | Some h, Some mi, Some sec, Some ms => timeOfDay h mi sec ms
         | _, _, _, _ => None
         end)
  | cs =>
      match splitOn "/" cs with
      | [m; d; [y1; y2; y3; y4]] =>
          match shortField m, shortField d with
          | Some _, Some _ => date [y1; y2; y3; y4] m d (Some 0)
          | _, _ => NaN
          end
      | _ => NaN
      end
  end.

(** [z] in decimal, at least [width] digits ([z] is not negative) *)
Definition pad (width : nat) (z : Z) : string :=
  let s := pretty z in
  String.concat "" (repeat "0" (width - String.length s)%nat) +:+ s.

Definition format (t : Z) : string :=
  let days := t / msPerDay in
  let ms := t mod msPerDay in
  let '(y, m, d) := civilFromDays days in
  let year :=
    if (0 <=? y) && (y <=? 9999) then pad 4 y
    else (if y <? 0 then "-" else "+") +:+ pad 6 (Z.abs y) in
  year +:+ "-" +:+ pad 2 m +:+ "-" +:+ pad 2 d +:+ "T" +:+
  pad 2 (ms / 3600000) +:+ ":" +:+ pad 2 (ms / 60000 mod 60) +:+ ":" +:+
  pad 2 (ms / 1000 mod 60) +:+ "." +:+ pad 3 (ms mod 1000) +:+ "Z".

Definition host : Host := {| Date_parse := parse; toISOString := format |}.

End Iso8601.

(** ** The data model *)

Module Firearm.
Record t : Type := mk {
  id : Z;
  makeModel : string;
  serial : string;
  caliber : string;
  type : string;
  purchaseDate : string;
  price : string;
  notes : string;
  createdAt : string
}.
End Firearm.

Module Maintenance.
Record t : Type := mk {
  id : Z;
  type : string;
  date : string;
  firearmId : option Z;
  firearmMakeModel : string;
  notes : string;
  createdAt : string
}.
End Maintenance.

Module Training.
Record t : Type := mk {
  id : Z;
  type : string;
  date : string;
  duration : Z;
  firearmId : option Z;
  firearmMakeModel : string;
  notes : string;
  score : option Z;
  createdAt : string
}.
End Training.

Module Permit.
Record t : Type := mk {
  id : Z;
  type : string;
  state : string;
  issueDate : string;
  expirationDate : string;
  permitNumber : string;
  notes : string;
  createdAt : string
}.
End Permit.

Module Settings.
Record notifications_t : Type := mkNotifications {
  permitAlerts : bool;
  maintenanceAlerts : bool;
  trainingAlerts : bool
}.
Record t : Type := mk {
  userState : string;
  notifications : notifications_t
}.
End Settings.

Module Alert.
Record t : Type := mk {
  title : string;
  description : string;
  priority : string
}.
End Alert.

(** [this.data] *)
Record Data : Type := mkData {
  firearms : list Firearm.t;
  maintenance : list Maintenance.t;
  training : list Training.t;
  permits : list Permit.t;
  settings : Settings.t
}.

(** ** The alert engine *)

(** [1000 * 60 * 60 * 24] *)
Definition MS_PER_DAY : positive := 1000 * 60 * 60 * 24.

Section AlertEngine.
Context `{Host}.

Definition isPermitExpiringSoon (permit : Permit.t) (now : Z) : bool :=
  if negb (truthy (Permit.expirationDate permit)) then false
  else
    let expiration := Date_parse (Permit.expirationDate permit) in
    let now := Date_at now in
    let daysUntil := num_div (num_sub expiration now) MS_PER_DAY in
    num_le daysUntil (Num 90).

(** [forEach] over the permits, counting *)
Definition calculateAlerts (data : Data) (now : Z) : nat :=
  fold_left
    (fun count permit =>
       if isPermitExpiringSoon permit now then S count else count)
    (permits data) 0%nat.

(** [forEach] over the permits; [alerts.push] appends *)
Definition generateAlerts (data : Data) (now : Z) : list Alert.t :=
  let now := Date_at now in
  fold_left
    (fun alerts permit =>
       if truthy (Permit.expirationDate permit) then
         let expiration := Date_parse (Permit.expirationDate permit) in
         let daysUntil := num_div (num_sub expiration now) MS_PER_DAY in
         if num_le daysUntil (Num 30) then
           alerts ++ [ {| Alert.title := Permit.type permit +:+ " Expiring Soon";
                          Alert.description :=
                            "Your " +:+ Permit.state permit +:+ " " +:+
                            Permit.type permit +:+ " expires in " +:+
                            ToString (Math_ceil daysUntil) +:+ " days";
                          Alert.priority := "high" |} ]
         else if num_le daysUntil (Num 90) then
           alerts ++ [ {| Alert.title := Permit.type permit +:+ " Renewal Reminder";
                          Alert.description :=
                            "Your " +:+ Permit.state permit +:+ " " +:+
                            Permit.type permit +:+ " expires in " +:+
                            ToString (Math_ceil daysUntil) +:+ " days";
                          Alert.priority := "medium" |} ]
         else alerts
       else alerts)
    (permits data) [].

End AlertEngine.

(** ** IndexedDB *)

(** A row of the [settings] store: [{key, value}]. *)
Record SettingsRow : Type := mkSettingsRow {
  key : string;
  value : Settings.t
}.

(** The database [CarryVaultDB] once [onupgradeneeded] has created its five
    object stores. A store maps a key to its record; [failing] names the
    stores whose requests end in [onerror] for a reason of the device. *)
Record IDBDatabase : Type := mkDB {
  firearmsRows : gmap Z Firearm.t;
  maintenanceRows : gmap Z Maintenance.t;
  trainingRows : gmap Z Training.t;
  permitsRows : gmap Z Permit.t;
  settingsRows : gmap string SettingsRow;
  failing : string -> bool
}.

(** An object store of the database: its name, its rows, its key path
    ([id] or [key]) and the order of its keys: numbers by value, strings by
    their code units. *)
Record objectStore (K A : Type) `{Countable K} : Type := mkStore {
  storeName : string;
  rows : IDBDatabase -> gmap K A;
  with_rows : gmap K A -> IDBDatabase -> IDBDatabase;
  keyPath : A -> K;
  keyLeb : K -> K -> bool
}.
Arguments storeName {K A _ _}.
Arguments rows {K A _ _}.
Arguments with_rows {K A _ _}.
Arguments keyPath {K A _ _}.
Arguments keyLeb {K A _ _}.

(** The rows of a store in ascending order of their keys. *)
Definition byKey {K A} (leb : K -> K -> bool) : relation (K * A) :=
  fun x y => leb x.1 y.1.

#[global] Instance byKey_dec {K A} (leb : K -> K -> bool) : RelDecision (byKey (A := A) leb) :=
  fun x y => decide (Is_true (leb x.1 y.1)).

(** What [store.getAll()] results in: the records of the store, in
    ascending order of their keys. *)
Definition recordsOf {K A} `{Countable K} (leb : K -> K -> bool) (m : gmap K A) : list A :=
  (merge_sort (byKey leb) (map_to_list m)).*2.

Definition firearmsOS : objectStore Z Firearm.t :=
  {| storeName := "firearms"; rows := firearmsRows;
     with_rows := fun m d =>
       mkDB m (maintenanceRows d) (trainingRows d) (permitsRows d)
            (settingsRows d) (failing d);
     keyPath := Firearm.id;
     keyLeb := Z.leb |}.

Definition maintenanceOS : objectStore Z Maintenance.t :=
  {| storeName := "maintenance"; rows := maintenanceRows;
     with_rows := fun m d =>
       mkDB (firearmsRows d) m (trainingRows d) (permitsRows d)
            (settingsRows d) (failing d);
     keyPath := Maintenance.id;
     keyLeb := Z.leb |}.

Definition trainingOS : objectStore Z Training.t :=
  {| storeName := "training"; rows := trainingRows;
     with_rows := fun m d =>
       mkDB (firearmsRows d) (maintenanceRows d) m (permitsRows d)
            (settingsRows d) (failing d);
     keyPath := Training.id;
     keyLeb := Z.leb |}.

Definition permitsOS : objectStore Z Permit.t :=
  {| storeName := "permits"; rows := permitsRows;
     with_rows := fun m d =>
       mkDB (firearmsRows d) (maintenanceRows d) (trainingRows d) m
            (settingsRows d) (failing d);
     keyPath := Permit.id;
     keyLeb := Z.leb |}.

Definition settingsOS : objectStore string SettingsRow :=
  {| storeName := "settings"; rows := settingsRows;
     with_rows := fun m d =>
       mkDB (firearmsRows d) (maintenanceRows d) (trainingRows d)
            (permitsRows d) m (failing d);
     keyPath := key;
     keyLeb := String.leb |}.

(** ** The application object *)

(** The inputs of the add-firearm modal, by element id. *)
Record FirearmForm : Type := mkForm {
  firearmMakeModel : string;
  firearmSerial : string;
  firearmCaliber : string;
  firearmType : string;
  firearmPurchaseDate : string;
  firearmPrice : string;
  firearmNotes : string
}.

(** What the page shows. An element that the application has not written
    yet is [None]: it still shows what the static page came with. A list
    element holds the records (or alerts) its cards were rendered from; a
    permit card also shows whether the permit is expiring soon. *)
Record View : Type := mkView {
  gunCount : option nat;
  maintenanceCount : option nat;
  trainingCount : option nat;
  alertCount : option nat;
  firearmList : option (list Firearm.t);
  maintenanceList : option (list Maintenance.t);
  trainingList : option (list Training.t);
  permitList : option (list (Permit.t * bool));
  alertList : option (list Alert.t);
  complianceInfo : option string;
  modalShown : bool;
  form : FirearmForm
}.

(** What the program tells the outside, in order. *)
Inductive Event : Type :=
  | ConsoleError (msg : string)
  | WindowAlert (msg : string)
  | RequestGetAll (store : string)
  | RequestAdd (store : string).

(** What a promise is rejected with. *)
Inductive Error : Type :=
  | TypeError        (* [this.db] is [null] *)
  | ConstraintError  (* [add] of a key the store already holds *)
  | UnknownError     (* the request failed on the device *)
  | ReferenceError   (* [indexedDB] is not defined *)
  | SecurityError.   (* [indexedDB.open] is not allowed *)

(** How [indexedDB.open] goes: it throws, also when [indexedDB] is not
    defined; or it gives a request, which ends with [onerror] ([None]) or
    with [onsuccess] and the database. *)
Inductive OpenAttempt : Type :=
  | Request (ended : option IDBDatabase)
  | OpenThrows (e : Error).

Record App : Type := mkApp {
  db : option IDBDatabase;
  currentTab : string;
  data : Data;
  view : View;
  log : list Event
}.

Definition defaultSettings : Settings.t :=
  {| Settings.userState := "";
     Settings.notifications :=
       {| Settings.permitAlerts := true;
          Settings.maintenanceAlerts := true;
          Settings.trainingAlerts := true |} |}.

Definition emptyForm : FirearmForm := mkForm "" "" "" "" "" "" "".

(** The page before any script has run; [form0] is what the user typed. *)
Definition staticView (form0 : FirearmForm) : View :=
  mkView None None None None None None None None None None false form0.

(** [constructor()], before [this.init()] *)
Definition constructor (form0 : FirearmForm) : App :=
  {| db := None;
     currentTab := "dashboard";
     data := {| firearms := []; maintenance := []; training := [];
                permits := []; settings := defaultSettings |};
     view := staticView form0;
     log := [] |}.

(** ** Asynchronous methods: state and rejection *)

Inductive completion (A : Type) : Type :=
  | Returned (a : A)
  | Thrown (e : Error).
Arguments Returned {A}.
Arguments Thrown {A}.

(** A method of the application object: it runs on the object, and returns
    or throws (an [async] method: resolves or rejects), leaving the object
    as it was at that point. *)
Definition M (A : Type) : Type := App -> completion A * App.

#[global] Instance M_ret : MRet M := fun A a app => (Returned a, app).
#[global] Instance M_bind : MBind M := fun A B f m app =>
  match m app with
  | (Returned a, app') => f a app'
  | (Thrown e, app') => (Thrown e, app')
  end.

Definition throw {A} (e : Error) : M A := fun app => (Thrown e, app).
Definition get : M App := fun app => (Returned app, app).
Definition modify (f : App -> App) : M unit := fun app => (Returned tt, f app).

(** [try { body } catch (error) { handler(error) }] *)
Definition try_catch {A} (body : M A) (handler : Error -> M A) : M A :=
  fun app =>
    match body app with
    | (Returned a, app') => (Returned a, app')
    | (Thrown e, app') => handler e app'
    end.

Definition emit (e : Event) : M unit :=
  modify (fun app => mkApp (db app) (currentTab app) (data app) (view app)
                           (log app ++ [e])).
Definition set_db (d : option IDBDatabase) : M unit :=
  modify (fun app => mkApp d (currentTab app) (data app) (view app) (log app)).
Definition set_data (f : Data -> Data) : M unit :=
  modify (fun app => mkApp (db app) (currentTab app) (f (data app)) (view app)
                           (log app)).
Definition set_view (f : View -> View) : M unit :=
  modify (fun app => mkApp (db app) (currentTab app) (data app) (f (view app))
                           (log app)).

(** ** The facade *)

(** [updateComplianceInfo()] declares [const info] twice in one scope, for
    the element and for the entry of the chosen state, so its text does not
    say what the method does. Its two declarations read [settings] and the
    element [complianceInfo] and nothing else: a reading of the method
    tells, from the settings, whether it throws or what it writes into that
    element. The results below hold for every reading. *)
Class Reading : Type := {
  complianceInfoOf : Settings.t -> completion string
}.

Section Facade.
Context `{Host} {R : Reading}.

(** [getAll(storeName)]: the records of the store, in ascending order of
    their keys. *)
Definition getAll {K A} `{Countable K} (os : objectStore K A) : M (list A) :=
  app ← get;
  match db app with
  | None => throw TypeError
  | Some d =>
      emit (RequestGetAll (storeName os));;
      if failing d (storeName os) then throw UnknownError
      else mret (recordsOf (keyLeb os) (rows os d))
  end.

(** [addItem(storeName, item)]: [store.add] takes the key from the item's
    key path and fails when the store holds that key already. *)
Definition addItem {K A} `{Countable K} (os : objectStore K A) (item : A) : M K :=
  app ← get;
  match db app with
  | None => throw TypeError
  | Some d =>
      emit (RequestAdd (storeName os));;
      if failing d (storeName os) then throw UnknownError
      else
        match rows os d !! keyPath os item with
        | Some _ => throw ConstraintError
        | None =>
            set_db (Some (with_rows os (<[keyPath os item := item]> (rows os d)) d));;
            mret (keyPath os item)
        end
  end.

(** [initDB()]. The call [indexedDB.open] stands in the executor of the
    promise: when [indexedDB] is not defined, or [open] throws, the promise
    is rejected with what was thrown. Otherwise the request ends with
    [onerror], which logs and resolves, or with [onsuccess], which keeps the
    database. *)
Definition initDB (indexedDB : OpenAttempt) : M unit :=
  match indexedDB with
  | OpenThrows e => throw e
  | Request None => emit (ConsoleError "Database error:")
  | Request (Some d) => set_db (Some d)
  end.

Definition loadData : M unit :=
  app ← get;
  match db app with
  | None => mret tt
  | Some _ =>
      try_catch
        (loaded ← getAll firearmsOS;
         set_data (fun d => mkData loaded (maintenance d) (training d)
                                   (permits d) (settings d));;
         loaded ← getAll maintenanceOS;
         set_data (fun d => mkData (firearms d) loaded (training d)
                                   (permits d) (settings d));;
         loaded ← getAll trainingOS;
         set_data (fun d => mkData (firearms d) (maintenance d) loaded
                                   (permits d) (settings d));;
         loaded ← getAll permitsOS;
         set_data (fun d => mkData (firearms d) (maintenance d) (training d)
                                   loaded (settings d));;
         loaded ← getAll settingsOS;
         match loaded with
         | row :: _ =>
             set_data (fun d => mkData (firearms d) (maintenance d) (training d)
                                       (permits d) (value row))
         | [] => mret tt
         end)
        (fun error => emit (ConsoleError "Error loading data:"))
  end.

Definition updateDashboard (now : Z) : M unit :=
  app ← get;
  let d := data app in
  set_view (fun v =>
    mkView (Some (length (firearms d))) (Some (length (maintenance d)))
           (Some (length (training d))) (Some (calculateAlerts d now))
           (firearmList v) (maintenanceList v) (trainingList v) (permitList v)
           (alertList v) (complianceInfo v) (modalShown v) (form v)).

Definition updateInventory : M unit :=
  app ← get;
  set_view (fun v =>
    mkView (gunCount v) (maintenanceCount v) (trainingCount v) (alertCount v)
           (Some (firearms (data app))) (maintenanceList v) (trainingList v)
           (permitList v) (alertList v) (complianceInfo v) (modalShown v) (form v)).

Definition updateMaintenance : M unit :=
  app ← get;
  set_view (fun v =>
    mkView (gunCount v) (maintenanceCount v) (trainingCount v) (alertCount v)
           (firearmList v) (Some (maintenance (data app))) (trainingList v)
           (permitList v) (alertList v) (complianceInfo v) (modalShown v) (form v)).

Definition updateTraining : M unit :=
  app ← get;
  set_view (fun v =>
    mkView (gunCount v) (maintenanceCount v) (trainingCount v) (alertCount v)
           (firearmList v) (maintenanceList v) (Some (training (data app)))
           (permitList v) (alertList v) (complianceInfo v) (modalShown v) (form v)).

Definition updatePermits (now : Z) : M unit :=
  app ← get;
  set_view (fun v =>
    mkView (gunCount v) (maintenanceCount v) (trainingCount v) (alertCount v)
           (firearmList v) (maintenanceList v) (trainingList v)
           (Some (map (fun permit => (permit, isPermitExpiringSoon permit now))
                      (permits (data app))))
           (alertList v) (complianceInfo v) (modalShown v) (form v)).

Definition updateAlerts (now : Z) : M unit :=
  app ← get;
  let alerts := generateAlerts (data app) now in
  set_view (fun v =>
    mkView (gunCount v) (maintenanceCount v) (trainingCount v) (alertCount v)
           (firearmList v) (maintenanceList v) (trainingList v) (permitList v)
           (Some alerts) (complianceInfo v) (modalShown v) (form v)).

(** [updateComplianceInfo()], as the reading has it. *)
Definition updateComplianceInfo : M unit :=
  app ← get;
  match complianceInfoOf (settings (data app)) with
  | Thrown e => throw e
  | Returned html =>
      set_view (fun v =>
        mkView (gunCount v) (maintenanceCount v) (trainingCount v) (alertCount v)
               (firearmList v) (maintenanceList v) (trainingList v) (permitList v)
               (alertList v) (Some html) (modalShown v) (form v))
  end.

Definition updateCompliance (now : Z) : M unit :=
  updatePermits now;;
  updateAlerts now;;
  updateComplianceInfo.

Definition closeModal : M unit :=
  set_view (fun v =>
    mkView (gunCount v) (maintenanceCount v) (trainingCount v) (alertCount v)
           (firearmList v) (maintenanceList v) (trainingList v) (permitList v)
           (alertList v) (complianceInfo v) false (form v)).

Definition addFirearm : M unit :=
  set_view (fun v =>
    mkView (gunCount v) (maintenanceCount v) (trainingCount v) (alertCount v)
           (firearmList v) (maintenanceList v) (trainingList v) (permitList v)
           (alertList v) (complianceInfo v) true (form v)).

(** [init()], as far as the data goes. Between [loadData] and
    [updateDashboard] the method sets up the listeners, registers the
    service worker and shows the offline indicator; on a page that has
    the elements these steps look up they write nothing of [App]. *)
Definition init (indexedDB : OpenAttempt) (now : Z) : M unit :=
  initDB indexedDB;;
  loadData;;
  updateDashboard now.

Definition saveFirearm (now : Z) : M unit :=
  app ← get;
  let f := form (view app) in
  let firearm :=
    {| Firearm.id := now;
       Firearm.makeModel := firearmMakeModel f;
       Firearm.serial := firearmSerial f;
       Firearm.caliber := firearmCaliber f;
       Firearm.type := firearmType f;
       Firearm.purchaseDate := firearmPurchaseDate f;
       Firearm.price := firearmPrice f;
       Firearm.notes := firearmNotes f;
       Firearm.createdAt := toISOString now |} in
  if negb (truthy (Firearm.makeModel firearm)) then
    emit (WindowAlert "Make/Model is required")
  else
    addItem firearmsOS firearm;;
    set_data (fun d => mkData (firearms d ++ [firearm]) (maintenance d)
                              (training d) (permits d) (settings d));;
    updateInventory;;
    updateDashboard now;;
    closeModal;;
    set_view (fun v =>
      mkView (gunCount v) (maintenanceCount v) (trainingCount v) (alertCount v)
             (firearmList v) (maintenanceList v) (trainingList v) (permitList v)
             (alertList v) (complianceInfo v) (modalShown v) emptyForm).

Definition addMaintenance (now : Z) : M unit :=
  let maintenance' :=
    {| Maintenance.id := now;
       Maintenance.type := "Cleaning";
       Maintenance.date := split_T_0 (toISOString now);
       Maintenance.firearmId := None;
       Maintenance.firearmMakeModel := "General";
       Maintenance.notes := "";
       Maintenance.createdAt := toISOString now |} in
  addItem maintenanceOS maintenance';;
  set_data (fun d => mkData (firearms d) (maintenance d ++ [maintenance'])
                            (training d) (permits d) (settings d));;
  updateMaintenance;;
  updateDashboard now.

Definition addTraining (now : Z) : M unit :=
  let training' :=
    {| Training.id := now;
       Training.type := "Range Session";
       Training.date := split_T_0 (toISOString now);
       Training.duration := 1;
       Training.firearmId := None;
       Training.firearmMakeModel := "General";
       Training.notes := "";
       Training.score := None;
       Training.createdAt := toISOString now |} in
  addItem trainingOS training';;
  set_data (fun d => mkData (firearms d) (maintenance d)
                            (training d ++ [training'])
                            (permits d) (settings d));;
  updateTraining;;
  updateDashboard now.

Definition addPermit (now : Z) : M unit :=
  let permit :=
    {| Permit.id := now;
       Permit.type := "Concealed Carry";
       Permit.state := "";
       Permit.issueDate := "";
       Permit.expirationDate := "";
       Permit.permitNumber := "";
       Permit.notes := "";
       Permit.createdAt := toISOString now |} in
  addItem permitsOS permit;;
  set_data (fun d => mkData (firearms d) (maintenance d) (training d)
                            (permits d ++ [permit]) (settings d));;
  updateCompliance now.

End Facade.


(** ** Navigation *)

Section Navigation.
Context `{Host} {R : Reading}.

(** [updateSection(sectionName)]: a [switch] without a default. *)
Definition updateSection (sectionName : string) (now : Z) : M unit :=
  if String.eqb sectionName "dashboard" then updateDashboard now
  else if String.eqb sectionName "inventory" then updateInventory
  else if String.eqb sectionName "maintenance" then updateMaintenance
  else if String.eqb sectionName "training" then updateTraining
  else if String.eqb sectionName "compliance" then updateCompliance now
  else mret tt.

(** [showSection(sectionName)] on a page where [hasElement] tells the ids
    that [document.getElementById] finds. The method first takes the class
    [active] from every section and navigation item, then reads
    [getElementById(sectionName).classList], which throws when there is no
    such element; only after that it sets [currentTab] and updates the
    section. Every navigation item of the page holds a [span]. Which
    elements carry the class [active] is not part of [View]. *)
Definition showSection (hasElement : string -> bool) (sectionName : string) (now : Z) :
    M unit :=
  if hasElement sectionName then
    modify (fun app => mkApp (db app) sectionName (data app) (view app) (log app));;
    updateSection sectionName now
  else throw TypeError.

(** [showSettings()]: the settings are in the export section. *)
Definition showSettings (hasElement : string -> bool) (now : Z) : M unit :=
  showSection hasElement "export" now.

End Navigation.

(** ** The export formatter *)

(** The value that [JSON.stringify] writes out. *)
#[warnings="-register-all"]
Inductive json : Type :=
  | JNull
  | JBool (b : bool)
  | JNumber (z : Z)
  | JString (s : string)
  | JArray (items : list json)
  | JObject (members : list (string * json)).

(** [number | null] *)
Definition JNullable (o : option Z) : json :=
  match o with
  | Some z => JNumber z
  | None => JNull
  end.

(** The records as objects, their properties in the order in which the
    facade writes them. *)
Definition Firearm_toJSON (gun : Firearm.t) : json :=
  JObject [ ("id", JNumber (Firearm.id gun));
            ("makeModel", JString (Firearm.makeModel gun));
            ("serial", JString (Firearm.serial gun));
            ("caliber", JString (Firearm.caliber gun));
            ("type", JString (Firearm.type gun));
            ("purchaseDate", JString (Firearm.purchaseDate gun));
            ("price", JString (Firearm.price gun));
            ("notes", JString (Firearm.notes gun));
            ("createdAt", JString (Firearm.createdAt gun)) ].

Definition Maintenance_toJSON (item : Maintenance.t) : json :=
  JObject [ ("id", JNumber (Maintenance.id item));
            ("type", JString (Maintenance.type item));
            ("date", JString (Maintenance.date item));
            ("firearmId", JNullable (Maintenance.firearmId item));
            ("firearmMakeModel", JString (Maintenance.firearmMakeModel item));
            ("notes", JString (Maintenance.notes item));
            ("createdAt", JString (Maintenance.createdAt item)) ].

Definition Training_toJSON (item : Training.t) : json :=
  JObject [ ("id", JNumber (Training.id item));
            ("type", JString (Training.type item));
            ("date", JString (Training.date item));
            ("duration", JNumber (Training.duration item));
            ("firearmId", JNullable (Training.firearmId item));
            ("firearmMakeModel", JString (Training.firearmMakeModel item));
            ("notes", JString (Training.notes item));
            ("score", JNullable (Training.score item));
            ("createdAt", JString (Training.createdAt item)) ].

Definition Permit_toJSON (permit : Permit.t) : json :=
  JObject [ ("id", JNumber (Permit.id permit));
            ("type", JString (Permit.type permit));
            ("state", JString (Permit.state permit));
            ("issueDate", JString (Permit.issueDate permit));
            ("expirationDate", JString (Permit.expirationDate permit));
            ("permitNumber", JString (Permit.permitNumber permit));
            ("notes", JString (Permit.notes permit));
            ("createdAt", JString (Permit.createdAt permit)) ].

Definition Settings_toJSON (s : Settings.t) : json :=
  JObject [ ("userState", JString (Settings.userState s));
            ("notifications",
             JObject [ ("permitAlerts",
                        JBool (Settings.permitAlerts (Settings.notifications s)));
                       ("maintenanceAlerts",
                        JBool (Settings.maintenanceAlerts (Settings.notifications s)));
                       ("trainingAlerts",
                        JBool (Settings.trainingAlerts (Settings.notifications s))) ]) ].

(** The file that [a.click()] saves. *)
Record Download : Type := mkDownload {
  download : string;
  document : json
}.

Section ExportFormatter.
Context `{Host} {R : Reading}.

Definition exportData (data : Data) (now : Z) : Download :=
  let data' :=
    JObject [ ("firearms", JArray (map Firearm_toJSON (firearms data)));
              ("maintenance", JArray (map Maintenance_toJSON (maintenance data)));
              ("training", JArray (map Training_toJSON (training data)));
              ("permits", JArray (map Permit_toJSON (permits data)));
              ("settings", Settings_toJSON (settings data));
              ("exportDate", JString (toISOString now)) ] in
  {| download := "carryvault-export-" +:+ split_T_0 (toISOString now) +:+ ".json";
     document := data' |}.

Definition exportInventory (data : Data) (now : Z) : Download :=
  let data' :=
    JObject [ ("type", JString "Inventory Report");
              ("generated", JString (toISOString now));
              ("firearms",
               JArray (map (fun gun =>
                 JObject [ ("makeModel", JString (Firearm.makeModel gun));
                           ("serial", JString (Firearm.serial gun));
                           ("caliber", JString (Firearm.caliber gun));
                           ("type", JString (Firearm.type gun));
                           ("purchaseDate", JString (Firearm.purchaseDate gun));
                           ("price", JString (Firearm.price gun)) ])
                 (firearms data))) ] in
  {| download := "carryvault-inventory-" +:+ split_T_0 (toISOString now) +:+ ".json";
     document := data' |}.

Definition exportTheftReport (data : Data) (now : Z) : Download :=
  let data' :=
    JObject [ ("type", JString "Theft Report Template");
              ("generated", JString (toISOString now));
              ("personalInfo",
               JObject [ ("name", JString "[YOUR NAME]");
                         ("address", JString "[YOUR ADDRESS]");
                         ("phone", JString "[YOUR PHONE]") ]);
              ("stolenItems",
               JArray (map (fun gun =>
                 JObject [ ("makeModel", JString (Firearm.makeModel gun));
                           ("serial", JString (Firearm.serial gun));
                           ("caliber", JString (Firearm.caliber gun));
                           ("type", JString (Firearm.type gun));
                           ("purchaseDate", JString (Firearm.purchaseDate gun));
                           ("estimatedValue",
                            JString (or_else (Firearm.price gun) "[ESTIMATED VALUE]")) ])
                 (firearms data))) ] in
  {| download := "theft-report-template-" +:+ split_T_0 (toISOString now) +:+ ".json";
     document := data' |}.

End ExportFormatter.

(** *** Reading a document *)

(** The property names of an object, in order. *)
Definition keys (j : json) : list string :=
  match j with
  | JObject members => map fst members
  | _ => []
  end.

Fixpoint assoc (name : string) (members : list (string * json)) : option json :=
  match members with
  | [] => None
  | (k, v) :: rest => if String.eqb name k then Some v else assoc name rest
  end.

(** [j[name]] *)
Definition member (name : string) (j : json) : option json :=
  match j with
  | JObject members => assoc name members
  | _ => None
  end.

Definition asNumber (j : json) : option Z :=
  match j with JNumber z => Some z | _ => None end.
Definition asNullable (j : json) : option (option Z) :=
  match j with JNumber z => Some (Some z) | JNull => Some None | _ => None end.
Definition asString (j : json) : option string :=
  match j with JString s => Some s | _ => None end.
Definition asBool (j : json) : option bool :=
  match j with JBool b => Some b | _ => None end.
Definition asArray (j : json) : option (list json) :=
  match j with JArray items => Some items | _ => None end.

Definition Firearm_ofJSON (j : json) : option Firearm.t :=
  id ← member "id" j ≫= asNumber;
  makeModel ← member "makeModel" j ≫= asString;
  serial ← member "serial" j ≫= asString;
  caliber ← member "caliber" j ≫= asString;
  type ← member "type" j ≫= asString;
  purchaseDate ← member "purchaseDate" j ≫= asString;
  price ← member "price" j ≫= asString;
  notes ← member "notes" j ≫= asString;
  createdAt ← member "createdAt" j ≫= asString;
  Some (Firearm.mk id makeModel serial caliber type purchaseDate price notes createdAt).

Definition Maintenance_ofJSON (j : json) : option Maintenance.t :=
  id ← member "id" j ≫= asNumber;
  type ← member "type" j ≫= asString;
  date ← member "date" j ≫= asString;
  firearmId ← member "firearmId" j ≫= asNullable;
  firearmMakeModel ← member "firearmMakeModel" j ≫= asString;
  notes ← member "notes" j ≫= asString;
  createdAt ← member "createdAt" j ≫= asString;
  Some (Maintenance.mk id type date firearmId firearmMakeModel notes createdAt).

Definition Training_ofJSON (j : json) : option Training.t :=
  id ← member "id" j ≫= asNumber;
  type ← member "type" j ≫= asString;
  date ← member "date" j ≫= asString;
  duration ← member "duration" j ≫= asNumber;
  firearmId ← member "firearmId" j ≫= asNullable;
  firearmMakeModel ← member "firearmMakeModel" j ≫= asString;
  notes ← member "notes" j ≫= asString;
  score ← member "score" j ≫= asNullable;
  createdAt ← member "createdAt" j ≫= asString;
  Some (Training.mk id type date duration firearmId firearmMakeModel notes score
                    createdAt).

Definition Permit_ofJSON (j : json) : option Permit.t :=
  id ← member "id" j ≫= asNumber;
  type ← member "type" j ≫= asString;
  state ← member "state" j ≫= asString;
  issueDate ← member "issueDate" j ≫= asString;
  expirationDate ← member "expirationDate" j ≫= asString;
  permitNumber ← member "permitNumber" j ≫= asString;
  notes ← member "notes" j ≫= asString;
  createdAt ← member "createdAt" j ≫= asString;
  Some (Permit.mk id type state issueDate expirationDate permitNumber notes createdAt).

Definition Settings_ofJSON (j : json) : option Settings.t :=
  userState ← member "userState" j ≫= asString;
  n ← member "notifications" j;
  permitAlerts ← member "permitAlerts" n ≫= asBool;
  maintenanceAlerts ← member "maintenanceAlerts" n ≫= asBool;
  trainingAlerts ← member "trainingAlerts" n ≫= asBool;
  Some (Settings.mk userState
          (Settings.mkNotifications permitAlerts maintenanceAlerts trainingAlerts)).

(** Loading a full backup back, in the words of the specification: the
    four arrays and the settings of the document are read as the snapshot
    that they were written from, and [exportDate] is not read. The
    application has no import of its own. *)
Definition loadBackup (doc : json) : option Data :=
  firearms ← (member "firearms" doc ≫= asArray) ≫= mapM Firearm_ofJSON;
  maintenance ← (member "maintenance" doc ≫= asArray) ≫= mapM Maintenance_ofJSON;
  training ← (member "training" doc ≫= asArray) ≫= mapM Training_ofJSON;
  permits ← (member "permits" doc ≫= asArray) ≫= mapM Permit_ofJSON;
  settings ← member "settings" doc ≫= Settings_ofJSON;
  Some (mkData firearms maintenance training permits settings).

(** ** The service worker *)

(** [sw.js]. A request is its URL; the responses and the network are
    those of the host. *)
Module ServiceWorker.

Definition CACHE_NAME : string := "carryvault-v1".

Definition urlsToCache : list string :=
  ["/"; "/index.html"; "/app.js"; "/manifest.json"].

Section Worker.
Variable Response : Type.
(** [response.ok]: the status is in the range 200-299 *)
Variable ok : Response -> bool.

(** A cache maps a URL to the response stored for it; [caches], the cache
    storage of the origin, holds the caches by name, in the order in which
    they were created. *)
Definition CacheStorage : Type := list (string * gmap string Response).

(** [fetch(url)]: the response, or none when the fetch fails. *)
Definition Network : Type := string -> option Response.

(** [caches.open(name)]: the cache of that name is created when there is
    none. *)
Fixpoint caches_open (name : string) (caches : CacheStorage) : CacheStorage :=
  match caches with
  | [] => [(name, ∅)]
  | (n, c) :: rest =>
      if String.eqb n name then (n, c) :: rest
      else (n, c) :: caches_open name rest
  end.

(** The cache that [caches.open(name)] resolves with. *)
Fixpoint cache_of (name : string) (caches : CacheStorage) : gmap string Response :=
  match caches with
  | [] => ∅
  | (n, c) :: rest => if String.eqb n name then c else cache_of name rest
  end.

(** The storage once the cache of that name holds [c]. *)
Fixpoint caches_put (name : string) (c : gmap string Response) (caches : CacheStorage) :
    CacheStorage :=
  match caches with
  | [] => []
  | (n, c0) :: rest =>
      if String.eqb n name then (n, c) :: rest
      else (n, c0) :: caches_put name c rest
  end.

(** [caches.match(request)]: the first cache, in the order of creation, that
    holds a response for the request gives it. *)
Fixpoint caches_match (url : string) (caches : CacheStorage) : option Response :=
  match caches with
  | [] => None
  | (_, c) :: rest =>
      match c !! url with
      | Some r => Some r
      | None => caches_match url rest
      end
  end.

(** [cache.addAll(urls)]: every URL is fetched; when one fetch fails or one
    response is not [ok], nothing is stored and the promise rejects;
    otherwise each response is stored under its URL. *)
Definition addAll (net : Network) (urls : list string) (c : gmap string Response) :
    option (gmap string Response) :=
  responses ← mapM (fun url =>
                      r ← net url;
                      if ok r then Some (url, r) else None) urls;
  Some (fold_left (fun c' '(url, r) => <[url := r]> c') responses c).

(** The [install] listener: [waitUntil] of opening the cache and adding the
    shell. The result tells whether the worker is installed. *)
Definition oninstall (net : Network) (caches : CacheStorage) : bool * CacheStorage :=
  let caches' := caches_open CACHE_NAME caches in
  match addAll net urlsToCache (cache_of CACHE_NAME caches') with
  | Some c => (true, caches_put CACHE_NAME c caches')
  | None => (false, caches')
  end.

(** The [fetch] listener: [respondWith] the response of a cache, or else
    that of the network; none when neither has one. *)
Definition onfetch (net : Network) (caches : CacheStorage) (url : string) :
    option Response :=
  match caches_match url caches with
  | Some response => Some response
  | None => net url
  end.

End Worker.

End ServiceWorker.

(** ** Vocabulary of the statements *)

(** *** The alert engine *)

(** A snapshot that holds the given permits and nothing else. *)
Definition onlyPermits (ps : list Permit.t) : Data :=
  {| firearms := []; maintenance := []; training := []; permits := ps;
     settings := defaultSettings |}.

Section Vocabulary.
Context `{Host} {R : Reading}.

(** The alerts that the engine emits for one permit. *)
Definition alertsOf (permit : Permit.t) (now : Z) : list Alert.t :=
  generateAlerts (onlyPermits [permit]) now.

(** [(expirationDate - now) / 1 day] *)
Definition daysUntil (permit : Permit.t) (now : Z) : number :=
  num_div (num_sub (Date_parse (Permit.expirationDate permit)) (Date_at now))
          MS_PER_DAY.

(** The two alerts of the engine, for a permit that expires in [days] days. *)
Definition highAlert (permit : Permit.t) (days : Z) : Alert.t :=
  {| Alert.title := Permit.type permit +:+ " Expiring Soon";
     Alert.description :=
       "Your " +:+ Permit.state permit +:+ " " +:+ Permit.type permit +:+
       " expires in " +:+ pretty days +:+ " days";
     Alert.priority := "high" |}.

Definition mediumAlert (permit : Permit.t) (days : Z) : Alert.t :=
  {| Alert.title := Permit.type permit +:+ " Renewal Reminder";
     Alert.description :=
       "Your " +:+ Permit.state permit +:+ " " +:+ Permit.type permit +:+
       " expires in " +:+ pretty days +:+ " days";
     Alert.priority := "medium" |}.

(** The message that the specification gives the high-priority alert:
    ["<permitType> expiring in <ceil(daysUntil)> days"]. *)
Definition specifiedHighMessage (permit : Permit.t) (now : Z) : string :=
  Permit.type permit +:+ " expiring in " +:+
  ToString (Math_ceil (daysUntil permit now)) +:+ " days".

(** A permit is expiring soon: it has an expiration date, and at most 90
    days are left until then. *)
Definition expiringSoon (permit : Permit.t) (now : Z) : Prop :=
  Permit.expirationDate permit <> "" /\
  exists q, daysUntil permit now = Num q /\ (q <= 90)%Q.

End Vocabulary.

(** *** The facade *)

(** The operations that create a record. *)
Inductive Mutation : Type :=
  | SaveFirearm
  | AddMaintenance
  | AddTraining
  | AddPermit.

Section FacadeVocabulary.
Context `{Host} {R : Reading}.

Definition run (op : Mutation) (now : Z) : M unit :=
  match op with
  | SaveFirearm => saveFirearm now
  | AddMaintenance => addMaintenance now
  | AddTraining => addTraining now
  | AddPermit => addPermit now
  end.

(** The input passes the validation of the operation. *)
Definition accepted (op : Mutation) (app : App) : Prop :=
  match op with
  | SaveFirearm => firearmMakeModel (form (view app)) <> ""
  | _ => True
  end.

(** The snapshot of [app'] is that of [app] with one more record, whose id
    is [now], at the end of the collection of the operation. *)
Definition appended (op : Mutation) (now : Z) (app app' : App) : Prop :=
  match op with
  | SaveFirearm =>
      exists gun, Firearm.id gun = now /\
        data app' = mkData (firearms (data app) ++ [gun]) (maintenance (data app))
                           (training (data app)) (permits (data app))
                           (settings (data app))
  | AddMaintenance =>
      exists item, Maintenance.id item = now /\
        data app' = mkData (firearms (data app)) (maintenance (data app) ++ [item])
                           (training (data app)) (permits (data app))
                           (settings (data app))
  | AddTraining =>
      exists item, Training.id item = now /\
        data app' = mkData (firearms (data app)) (maintenance (data app))
                           (training (data app) ++ [item]) (permits (data app))
                           (settings (data app))
  | AddPermit =>
      exists permit, Permit.id permit = now /\
        data app' = mkData (firearms (data app)) (maintenance (data app))
                           (training (data app)) (permits (data app) ++ [permit])
                           (settings (data app))
  end.

(** The four counts of the dashboard are those of the snapshot at [now]. *)
Definition dashboardFresh (app : App) (now : Z) : Prop :=
  gunCount (view app) = Some (length (firearms (data app))) /\
  maintenanceCount (view app) = Some (length (maintenance (data app))) /\
  trainingCount (view app) = Some (length (training (data app))) /\
  alertCount (view app) = Some (calculateAlerts (data app) now).

(** The alert list shown is that of the snapshot at [now]. *)
Definition alertListFresh (app : App) (now : Z) : Prop :=
  alertList (view app) = Some (generateAlerts (data app) now).

(** Every derived value is that of the snapshot at [now]. *)
Definition allDerivedFresh (app : App) (now : Z) : Prop :=
  dashboardFresh app now /\ alertListFresh app now.

(** What an operation recomputes before it returns; the operations on the
    firearms, the maintenance and the training leave the alert list of the
    page as it is. *)
Definition refreshed (op : Mutation) (now : Z) (app app' : App) : Prop :=
  match op with
  | SaveFirearm =>
      dashboardFresh app' now /\
      firearmList (view app') = Some (firearms (data app')) /\
      alertList (view app') = alertList (view app)
  | AddMaintenance =>
      dashboardFresh app' now /\
      maintenanceList (view app') = Some (maintenance (data app')) /\
      alertList (view app') = alertList (view app)
  | AddTraining =>
      dashboardFresh app' now /\
      trainingList (view app') = Some (training (data app')) /\
      alertList (view app') = alertList (view app)
  | AddPermit =>
      alertListFresh app' now /\
      permitList (view app') =
        Some (map (fun permit => (permit, isPermitExpiringSoon permit now))
                  (permits (data app')))
  end.

End FacadeVocabulary.

(** The rows of a store are what was put there, and putting rows leaves
    the faults of the device as they are. *)
Definition lawful {K A} `{Countable K} (os : objectStore K A) : Prop :=
  forall m d,
    rows os (with_rows os m d) = m /\ failing (with_rows os m d) = failing d.

(** The rows of a store are stored under their key path. *)
Definition keyedBy {A} (key : A -> Z) (m : gmap Z A) : Prop :=
  forall k r, m !! k = Some r -> key r = k.

Definition keyedDB (d : IDBDatabase) : Prop :=
  keyedBy Firearm.id (firearmsRows d) /\
  keyedBy Maintenance.id (maintenanceRows d) /\
  keyedBy Training.id (trainingRows d) /\
  keyedBy Permit.id (permitsRows d).

(** Every row of the four stores of [d] is a row of [d'], under the same
    key. *)
Definition keepsRows (d d' : IDBDatabase) : Prop :=
  firearmsRows d ⊆ firearmsRows d' /\
  maintenanceRows d ⊆ maintenanceRows d' /\
  trainingRows d ⊆ trainingRows d' /\
  permitsRows d ⊆ permitsRows d'.

(** The ids of a collection of the snapshot are pairwise distinct, and the
    store, when there is one, holds a row under each of them. *)
Definition collectionOK {A} (key : A -> Z) (l : list A) (store : option (gmap Z A)) : Prop :=
  NoDup (key <$> l) /\
  forall m, store = Some m -> forall r, r ∈ l -> is_Some (m !! key r).

Definition consistent (app : App) : Prop :=
  collectionOK Firearm.id (firearms (data app)) (firearmsRows <$> db app) /\
  collectionOK Maintenance.id (maintenance (data app)) (maintenanceRows <$> db app) /\
  collectionOK Training.id (training (data app)) (trainingRows <$> db app) /\
  collectionOK Permit.id (permits (data app)) (permitsRows <$> db app).

(** The ids of every collection of a snapshot are pairwise distinct. *)
Definition distinctIds (data : Data) : Prop :=
  NoDup (Firearm.id <$> firearms data) /\
  NoDup (Maintenance.id <$> maintenance data) /\
  NoDup (Training.id <$> training data) /\
  NoDup (Permit.id <$> permits data).

(** The record that [saveFirearm] makes of the form at clock value [now]. *)
Definition firearmOfForm `{Host} (f : FirearmForm) (now : Z) : Firearm.t :=
  {| Firearm.id := now;
     Firearm.makeModel := firearmMakeModel f;
     Firearm.serial := firearmSerial f;
     Firearm.caliber := firearmCaliber f;
     Firearm.type := firearmType f;
     Firearm.purchaseDate := firearmPurchaseDate f;
     Firearm.price := firearmPrice f;
     Firearm.notes := firearmNotes f;
     Firearm.createdAt := toISOString now |}.

(** The user fills in the add-firearm form. *)
Definition typeForm (input : FirearmForm) (app : App) : App :=
  mkApp (db app) (currentTab app) (data app)
        (let v := view app in
         mkView (gunCount v) (maintenanceCount v) (trainingCount v) (alertCount v)
                (firearmList v) (maintenanceList v) (trainingList v) (permitList v)
                (alertList v) (complianceInfo v) (modalShown v) input)
        (log app).

Section Reachable.
Context `{Host} {R : Reading}.

(** The states of the application: after startup on a database whose rows
    are stored under their ids, and from there by the user's input and the
    create operations, whether they return or throw. *)
Inductive reachable : App -> Prop :=
  | reachable_init (form0 : FirearmForm) (indexedDB : OpenAttempt) (now : Z) :
      (forall d, indexedDB = Request (Some d) -> keyedDB d) ->
      reachable (init indexedDB now (constructor form0)).2
  | reachable_typeForm (input : FirearmForm) (app : App) :
      reachable app -> reachable (typeForm input app)
  | reachable_run (op : Mutation) (now : Z) (app : App) :
      reachable app -> reachable (run op now app).2.

End Reachable.


(** *** The create operations, record by record *)

Section NewRecords.
Context `{Host} {R : Reading}.

(** The records that the operations without a form make at clock value
    [now]. *)
Definition maintenanceAt (now : Z) : Maintenance.t :=
  {| Maintenance.id := now;
     Maintenance.type := "Cleaning";
     Maintenance.date := split_T_0 (toISOString now);
     Maintenance.firearmId := None;
     Maintenance.firearmMakeModel := "General";
     Maintenance.notes := "";
     Maintenance.createdAt := toISOString now |}.

Definition trainingAt (now : Z) : Training.t :=
  {| Training.id := now;
     Training.type := "Range Session";
     Training.date := split_T_0 (toISOString now);
     Training.duration := 1;
     Training.firearmId := None;
     Training.firearmMakeModel := "General";
     Training.notes := "";
     Training.score := None;
     Training.createdAt := toISOString now |}.

Definition permitAt (now : Z) : Permit.t :=
  {| Permit.id := now;
     Permit.type := "Concealed Carry";
     Permit.state := "";
     Permit.issueDate := "";
     Permit.expirationDate := "";
     Permit.permitNumber := "";
     Permit.notes := "";
     Permit.createdAt := toISOString now |}.

(** The database and the snapshot after the operation has stored and
    appended its record. *)
Definition stored (op : Mutation) (now : Z) (app : App) (d : IDBDatabase) (app' : App) :
    Prop :=
  match op with
  | SaveFirearm =>
      let gun := firearmOfForm (form (view app)) now in
      db app' = Some (with_rows firearmsOS (<[now := gun]> (firearmsRows d)) d) /\
      data app' = mkData (firearms (data app) ++ [gun]) (maintenance (data app))
                         (training (data app)) (permits (data app))
                         (settings (data app))
  | AddMaintenance =>
      db app' = Some (with_rows maintenanceOS
                        (<[now := maintenanceAt now]> (maintenanceRows d)) d) /\
      data app' = mkData (firearms (data app))
                         (maintenance (data app) ++ [maintenanceAt now])
                         (training (data app)) (permits (data app))
                         (settings (data app))
  | AddTraining =>
      db app' = Some (with_rows trainingOS
                        (<[now := trainingAt now]> (trainingRows d)) d) /\
      data app' = mkData (firearms (data app)) (maintenance (data app))
                         (training (data app) ++ [trainingAt now])
                         (permits (data app)) (settings (data app))
  | AddPermit =>
      db app' = Some (with_rows permitsOS
                        (<[now := permitAt now]> (permitsRows d)) d) /\
      data app' = mkData (firearms (data app)) (maintenance (data app))
                         (training (data app))
                         (permits (data app) ++ [permitAt now])
                         (settings (data app))
  end.

End NewRecords.

(** The name of the store that an operation writes to. *)
Definition storeOf (op : Mutation) : string :=
  match op with
  | SaveFirearm => "firearms"
  | AddMaintenance => "maintenance"
  | AddTraining => "training"
  | AddPermit => "permits"
  end.

(** How an operation ends once its record is stored and appended:
    [addPermit] as [updateComplianceInfo] does, the others return. *)
Definition ending {R : Reading} (op : Mutation) (app : App) : completion unit :=
  match op with
  | AddPermit =>
      match complianceInfoOf (settings (data app)) with
      | Returned _ => Returned tt
      | Thrown e => Thrown e
      end
  | _ => Returned tt
  end.

(** The store of the operation holds a row under the key [now]. *)
Definition idTaken (op : Mutation) (now : Z) (d : IDBDatabase) : bool :=
  match op with
  | SaveFirearm => bool_decide (is_Some (firearmsRows d !! now))
  | AddMaintenance => bool_decide (is_Some (maintenanceRows d !! now))
  | AddTraining => bool_decide (is_Some (trainingRows d !! now))
  | AddPermit => bool_decide (is_Some (permitsRows d !! now))
  end.


(** *** The snapshot and the database *)






(** ** Sample data *)

(** 2026-11-01T00:00:00.000Z *)
Definition sampleNow : Z := 1793491200000.
Definition samplePermit (expirationDate : string) : Permit.t :=
  {| Permit.id := 1668124800000;
     Permit.type := "Concealed Carry";
     Permit.state := "TX";
     Permit.issueDate := "2022-11-11";
     Permit.expirationDate := expirationDate;
     Permit.permitNumber := "TX-0001";
     Permit.notes := "";
     Permit.createdAt := "2022-11-11T00:00:00.000Z" |}.

Definition emptyDB : IDBDatabase :=
  mkDB ∅ ∅ ∅ ∅ ∅ (fun _ => false).

Definition permitDB (permit : Permit.t) : IDBDatabase :=
  mkDB ∅ ∅ ∅ {[ Permit.id permit := permit ]} ∅ (fun _ => false).



Definition sampleForm : FirearmForm :=
  mkForm "Glock 19" "ABC123" "9mm" "Pistol" "2023-11-14" "550" "".

(** Two readings of [updateComplianceInfo]. With another name for the
    second declaration the method returns; what it writes is kept here as
    the state code. With the second [const] dropped the method assigns to a
    constant, and throws, as soon as a state is chosen. *)
Definition entryRenamed : Reading :=
  {| complianceInfoOf := fun st => Returned (Settings.userState st) |}.

Definition constDropped : Reading :=
  {| complianceInfoOf := fun st =>
       if truthy (Settings.userState st) then Thrown TypeError else Returned "" |}.


(** The application after startup on a database that holds one permit, ten
    days before the permit expires, with the add-firearm form filled in. *)
Definition loadedApp : App :=
  (init (H := Iso8601.host) (Request (Some (permitDB (samplePermit "2026-11-11")))) sampleNow
        (constructor sampleForm)).2.

(** The application after startup on an empty database. *)
Definition freshApp : App :=
  (init (H := Iso8601.host) (Request (Some emptyDB)) sampleNow (constructor emptyForm)).2.


(** The application after startup on an empty database and one maintenance
    record logged at [sampleNow]. *)
Definition loggedApp : App :=
  (addMaintenance (H := Iso8601.host) sampleNow freshApp).2.

(** The application after startup on a database that holds the settings
    of a user in Texas. *)
Definition texasApp : App :=
  (init (H := Iso8601.host)
     (Request (Some (mkDB ∅ ∅ ∅ ∅
                       {[ "userSettings" :=
                            mkSettingsRow "userSettings"
                              (Settings.mk "TX" (Settings.notifications defaultSettings)) ]}
                       (fun _ => false))))
     sampleNow (constructor emptyForm)).2.

(** [loadedApp] after the user has shown the compliance section. *)
Definition shownApp : App :=
  (updateSection (H := Iso8601.host) (R := entryRenamed) "compliance" sampleNow loadedApp).2.

(** ** The alert engine: proofs *)

Lemma truthy_true (s : string) : truthy s = true <-> s <> "".
Proof. destruct s; simpl; split; congruence. Qed.

Lemma fold_left_push {A B} (f : list B -> A -> list B) (g : A -> list B) :
  (forall acc x, f acc x = acc ++ g x) ->
  forall l acc, fold_left f l acc = acc ++ flat_map g l.
Proof.
  intros Hf l. induction l as [|x l IH]; intros acc; simpl.
  - by rewrite app_nil_r.
  - by rewrite IH, Hf, <- app_assoc.
Qed.

Lemma fold_left_count {A} (f : nat -> A -> nat) (t : A -> bool) :
  (forall n x, f n x = if t x then S n else n) ->
  forall l n, fold_left f l n = (n + length (List.filter t l))%nat.
Proof.
  intros Hf l. induction l as [|x l IH]; intros n; simpl.
  - lia.
  - rewrite IH, Hf. destruct (t x); simpl; lia.
Qed.

Lemma length_flat_map_filter {A B} (g : A -> list B) (t : A -> bool) :
  (forall x, length (g x) = if t x then 1%nat else 0%nat) ->
  forall l, length (flat_map g l) = length (List.filter t l).
Proof.
  intros Hg l. induction l as [|x l IH]; simpl; [done|].
  rewrite length_app, Hg, IH. by destruct (t x).
Qed.

Lemma num_le_Num (x y : Q) : num_le (Num x) (Num y) = true <-> (x <= y)%Q.
Proof. apply Qle_bool_iff. Qed.

Section AlertEngineFacts.
Context `{Host} {R : Reading}.

(** The alerts of one permit, by cases on its days until expiration. *)
Lemma alertsOf_cases (permit : Permit.t) (now : Z) :
  alertsOf permit now =
    if truthy (Permit.expirationDate permit) then
      match daysUntil permit now with
      | NaN => []
      | Num q =>
          if Qle_bool q 30 then [highAlert permit (Qceiling q)]
          else if Qle_bool q 90 then [mediumAlert permit (Qceiling q)]
          else []
      end
    else [].
Proof.
  unfold alertsOf, generateAlerts, daysUntil, highAlert, mediumAlert. simpl.
  destruct (truthy (Permit.expirationDate permit)); [|done].
  destruct (num_div _ _) as [|q]; simpl; [done|].
  destruct (Qle_bool q 30); [done|]. by destruct (Qle_bool q 90).
Qed.

(** The engine goes through the permits one by one, in order. *)
Lemma generateAlerts_flat_map (data : Data) (now : Z) :
  generateAlerts data now = flat_map (fun p => alertsOf p now) (permits data).
Proof.
  unfold generateAlerts.
  rewrite fold_left_push with (g := fun p => alertsOf p now); [done|].
  intros acc p. unfold alertsOf, generateAlerts. simpl.
  destruct (truthy _); [|by rewrite app_nil_r].
  destruct (num_le _ (Num 30)); [done|].
  destruct (num_le _ (Num 90)); [done|]. by rewrite app_nil_r.
Qed.

Lemma isPermitExpiringSoon_cases (permit : Permit.t) (now : Z) :
  isPermitExpiringSoon permit now =
    truthy (Permit.expirationDate permit) && num_le (daysUntil permit now) (Num 90).
Proof.
  unfold isPermitExpiringSoon, daysUntil.
  by destruct (truthy _).
Qed.

Lemma calculateAlerts_filter (data : Data) (now : Z) :
  calculateAlerts data now =
    length (List.filter (fun p => isPermitExpiringSoon p now) (permits data)).
Proof.
  unfold calculateAlerts.
  by rewrite fold_left_count with (t := fun p => isPermitExpiringSoon p now).
Qed.

Lemma Qle_30_90 (q : Q) : (q <= 30)%Q -> (q <= 90)%Q.
Proof. intros Hq. eapply Qle_trans; [exact Hq|]. by vm_compute. Qed.

Lemma length_alertsOf (permit : Permit.t) (now : Z) :
  length (alertsOf permit now) =
    if isPermitExpiringSoon permit now then 1%nat else 0%nat.
Proof.
  rewrite alertsOf_cases, isPermitExpiringSoon_cases.
  destruct (truthy _); simpl; [|done].
  destruct (daysUntil permit now) as [|q]; simpl; [done|].
  destruct (Qle_bool q 30) eqn:H30.
  - apply Qle_bool_iff, Qle_30_90, Qle_bool_iff in H30. by rewrite H30.
  - by destruct (Qle_bool q 90).
Qed.

End AlertEngineFacts.

Section AlertEngineClaims.
Context `{Host} {R : Reading}.

(** C1 (amended): the engine goes through the permits in order, and for
    each permit it emits: nothing when the expiration date is empty or is
    not a date; exactly one high-priority alert, titled
    ["<type> Expiring Soon"], when at most 30 days are left; exactly one
    medium-priority alert, titled ["<type> Renewal Reminder"], when more
    than 30 and at most 90 days are left; nothing when more than 90 days
    are left. The description of both alerts is
    ["Your <state> <type> expires in <ceil(daysUntil)> days"]. *)
Theorem generateAlerts_tiers (data : Data) (now : Z) :
  generateAlerts data now = flat_map (fun p => alertsOf p now) (permits data) /\
  forall permit : Permit.t,
    (Permit.expirationDate permit = "" -> alertsOf permit now = []) /\
    (Permit.expirationDate permit <> "" ->
     match daysUntil permit now with
     | NaN => alertsOf permit now = []
     | Num q =>
         ((q <= 30)%Q ->
          alertsOf permit now = [highAlert permit (Qceiling q)]) /\
         (~ (q <= 30)%Q -> (q <= 90)%Q ->
          alertsOf permit now = [mediumAlert permit (Qceiling q)]) /\
         (~ (q <= 90)%Q -> alertsOf permit now = [])
     end).
Proof.
  split; [apply generateAlerts_flat_map|].
  intros permit. rewrite alertsOf_cases. split.
  - intros E. by rewrite E.
  - intros E. apply truthy_true in E. rewrite E.
    destruct (daysUntil permit now) as [|q]; [done|].
    destruct (Qle_bool q 30) eqn:H30.
    + apply Qle_bool_iff in H30. repeat split; [done..|].
      intros H90. destruct H90. by apply Qle_30_90.
    + assert (~ (q <= 30)%Q) as N30.
      { intros Hle. apply Qle_bool_iff in Hle. congruence. }
      destruct (Qle_bool q 90) eqn:H90.
      * apply Qle_bool_iff in H90. repeat split; done.
      * repeat split; try done. intros _ Hle.
        apply Qle_bool_iff in Hle. congruence.
Qed.

(** C2: the count of [calculateAlerts] is the number of alerts of
    [generateAlerts] on the same snapshot at the same time; for both, a
    permit is expiring soon if and only if its expiration date is not empty
    and at most 90 days are left. *)
Theorem calculateAlerts_counts_generateAlerts (data : Data) (now : Z) :
  calculateAlerts data now = length (generateAlerts data now) /\
  forall permit : Permit.t,
    (isPermitExpiringSoon permit now = true <-> expiringSoon permit now) /\
    (alertsOf permit now <> [] <-> expiringSoon permit now).
Proof.
  split.
  - rewrite calculateAlerts_filter, generateAlerts_flat_map.
    symmetry. apply length_flat_map_filter. intros p. apply length_alertsOf.
  - intros permit.
    assert (isPermitExpiringSoon permit now = true <-> expiringSoon permit now) as Hsoon.
    { rewrite isPermitExpiringSoon_cases, andb_true_iff, truthy_true.
      unfold expiringSoon. split.
      - intros [E Hle]. split; [done|].
        destruct (daysUntil permit now) as [|q]; [done|].
        exists q. split; [done|]. by apply num_le_Num.
      - intros [E (q & -> & Hle)]. split; [done|]. by apply num_le_Num. }
    split; [done|]. rewrite <- Hsoon.
    pose proof (length_alertsOf permit now) as Hlen.
    destruct (isPermitExpiringSoon permit now); destruct (alertsOf permit now);
      simpl in Hlen; split; intros; congruence.
Qed.

(** C3: a permit whose expiration date is a date before now gets exactly one
    alert, of high priority, and the alert list of every snapshot that holds
    the permit contains that alert. *)
Theorem expired_permit_high_alert (data : Data) (now : Z) (permit : Permit.t) (e : Q) :
  In permit (permits data) ->
  Permit.expirationDate permit <> "" ->
  Date_parse (Permit.expirationDate permit) = Num e ->
  (e < inject_Z now)%Q ->
  exists days : Z,
    (days <= 0)%Z /\
    alertsOf permit now = [highAlert permit days] /\
    Alert.priority (highAlert permit days) = "high" /\
    In (highAlert permit days) (generateAlerts data now).
Proof.
  intros Hin E Hparse Hlt.
  set (q := ((e - inject_Z now) / inject_Z (Z.pos MS_PER_DAY))%Q).
  assert (daysUntil permit now = Num q) as Hd.
  { unfold daysUntil. by rewrite Hparse. }
  assert (q < 0)%Q as Hneg.
  { apply Qlt_shift_div_r; [done|]. lra. }
  assert (alertsOf permit now = [highAlert permit (Qceiling q)]) as Halerts.
  { rewrite alertsOf_cases, Hd. apply truthy_true in E. rewrite E.
    assert (Qle_bool q 30 = true) as ->; [|done].
    apply Qle_bool_iff. apply Qlt_le_weak. eapply Qlt_trans; [exact Hneg|done]. }
  exists (Qceiling q). repeat split; [|done|].
  - change 0%Z with (Qceiling 0). apply Qceiling_resp_le. by apply Qlt_le_weak.
  - rewrite generateAlerts_flat_map. apply in_flat_map.
    exists permit. split; [done|]. rewrite Halerts. by left.
Qed.

(** C10: a permit whose expiration date is a non-empty string that is not
    a date is not expiring for either helper: [isPermitExpiringSoon] is
    false, no alert is emitted for it, and with or without the permit the
    snapshot has the same alert count and the same alert list. *)
Theorem malformed_date_not_expiring
    (data : Data) (now : Z) (permit : Permit.t) (before after : list Permit.t) :
  Permit.expirationDate permit <> "" ->
  Date_parse (Permit.expirationDate permit) = NaN ->
  permits data = before ++ permit :: after ->
  isPermitExpiringSoon permit now = false /\
  alertsOf permit now = [] /\
  generateAlerts data now = generateAlerts (onlyPermits (before ++ after)) now /\
  calculateAlerts data now = calculateAlerts (onlyPermits (before ++ after)) now.
Proof.
  intros E Hparse Hdata.
  assert (daysUntil permit now = NaN) as Hd.
  { unfold daysUntil. by rewrite Hparse. }
  assert (isPermitExpiringSoon permit now = false) as Hsoon.
  { rewrite isPermitExpiringSoon_cases, Hd. apply andb_false_r. }
  assert (alertsOf permit now = []) as Halerts.
  { rewrite alertsOf_cases, Hd. by destruct (truthy _). }
  repeat split; [done..| |].
  - rewrite !generateAlerts_flat_map, Hdata. simpl.
    rewrite !flat_map_app. simpl. by rewrite Halerts.
  - rewrite !calculateAlerts_filter, Hdata. simpl.
    rewrite !List.filter_app. simpl. by rewrite Hsoon.
Qed.

End AlertEngineClaims.

Lemma expired_permit_high_alert_witness :
  exists days : Z,
    (days <= 0)%Z /\
    alertsOf (H := Iso8601.host) (samplePermit "2026-10-27") sampleNow =
      [highAlert (samplePermit "2026-10-27") days] /\
    Alert.priority (highAlert (samplePermit "2026-10-27") days) = "high" /\
    In (highAlert (samplePermit "2026-10-27") days)
       (generateAlerts (H := Iso8601.host)
          (onlyPermits [samplePermit "2026-11-11"; samplePermit "2026-10-27"])
          sampleNow).
Proof.
  apply (expired_permit_high_alert (H := Iso8601.host)
           (onlyPermits [samplePermit "2026-11-11"; samplePermit "2026-10-27"])
           sampleNow (samplePermit "2026-10-27") (inject_Z 1793059200000)).
  - right. left. reflexivity.
  - discriminate.
  - vm_compute. reflexivity.
  - vm_compute. reflexivity.
Defined.

Lemma malformed_date_not_expiring_witness :
  isPermitExpiringSoon (H := Iso8601.host) (samplePermit "next spring") sampleNow = false /\
  alertsOf (H := Iso8601.host) (samplePermit "next spring") sampleNow = [] /\
  generateAlerts (H := Iso8601.host)
    (onlyPermits [samplePermit "2026-11-11"; samplePermit "next spring"]) sampleNow =
  generateAlerts (H := Iso8601.host)
    (onlyPermits ([samplePermit "2026-11-11"] ++ [])) sampleNow /\
  calculateAlerts (H := Iso8601.host)
    (onlyPermits [samplePermit "2026-11-11"; samplePermit "next spring"]) sampleNow =
  calculateAlerts (H := Iso8601.host)
    (onlyPermits ([samplePermit "2026-11-11"] ++ [])) sampleNow.
Proof.
  apply (malformed_date_not_expiring (H := Iso8601.host)
           (onlyPermits [samplePermit "2026-11-11"; samplePermit "next spring"])
           sampleNow (samplePermit "next spring") [samplePermit "2026-11-11"] []).
  - discriminate.
  - vm_compute. reflexivity.
  - reflexivity.
Defined.

(** C1, as the specification words it, fails: ten days before expiration
    the engine emits one high-priority alert, and neither its title nor its
    description is ["Concealed Carry expiring in 10 days"]. *)
Lemma specified_message_not_emitted :
  specifiedHighMessage (H := Iso8601.host) (samplePermit "2026-11-11") sampleNow =
    "Concealed Carry expiring in 10 days" /\
  generateAlerts (H := Iso8601.host) (onlyPermits [samplePermit "2026-11-11"]) sampleNow =
    [ {| Alert.title := "Concealed Carry Expiring Soon";
         Alert.description := "Your TX Concealed Carry expires in 10 days";
         Alert.priority := "high" |} ] /\
  Forall (fun alert =>
            Alert.title alert <>
              specifiedHighMessage (H := Iso8601.host) (samplePermit "2026-11-11") sampleNow /\
            Alert.description alert <>
              specifiedHighMessage (H := Iso8601.host) (samplePermit "2026-11-11") sampleNow)
         (generateAlerts (H := Iso8601.host) (onlyPermits [samplePermit "2026-11-11"])
            sampleNow).
Proof.
  assert (specifiedHighMessage (H := Iso8601.host) (samplePermit "2026-11-11") sampleNow =
            "Concealed Carry expiring in 10 days") as -> by (vm_compute; reflexivity).
  assert (generateAlerts (H := Iso8601.host) (onlyPermits [samplePermit "2026-11-11"])
            sampleNow =
          [ {| Alert.title := "Concealed Carry Expiring Soon";
               Alert.description := "Your TX Concealed Carry expires in 10 days";
               Alert.priority := "high" |} ]) as -> by (vm_compute; reflexivity).
  repeat split. constructor; [|constructor]. split; discriminate.
Qed.

(** The examples of the specification, with their boundaries: ten days
    ahead, sixty, a hundred and twenty, five days ago; exactly thirty and
    exactly ninety days; a millisecond more than thirty days. *)
Example alerts_by_days :
  alertsOf (H := Iso8601.host) (samplePermit "2026-11-11") sampleNow =
    [highAlert (samplePermit "2026-11-11") 10] /\
  alertsOf (H := Iso8601.host) (samplePermit "2026-12-31") sampleNow =
    [mediumAlert (samplePermit "2026-12-31") 60] /\
  alertsOf (H := Iso8601.host) (samplePermit "2027-03-01") sampleNow = [] /\
  alertsOf (H := Iso8601.host) (samplePermit "2026-10-27") sampleNow =
    [highAlert (samplePermit "2026-10-27") (-5)] /\
  alertsOf (H := Iso8601.host) (samplePermit "2026-12-01") sampleNow =
    [highAlert (samplePermit "2026-12-01") 30] /\
  alertsOf (H := Iso8601.host) (samplePermit "2027-01-30") sampleNow =
    [mediumAlert (samplePermit "2027-01-30") 90] /\
  alertsOf (H := Iso8601.host) (samplePermit "2026-12-01") (sampleNow - 1) =
    [mediumAlert (samplePermit "2026-12-01") 31] /\
  Alert.description (highAlert (samplePermit "2026-10-27") (-5)) =
    "Your TX Concealed Carry expires in -5 days".
Proof. repeat split; vm_compute; reflexivity. Qed.

Example dashboard_count_of_three :
  calculateAlerts (H := Iso8601.host)
    (onlyPermits [samplePermit "2026-11-11"; samplePermit "2026-12-31";
                  samplePermit "2027-03-01"]) sampleNow = 2%nat.
Proof. vm_compute. reflexivity. Qed.

Example iso8601_dates :
  Iso8601.parse "2026-11-01" = Num (inject_Z sampleNow) /\
  Iso8601.format sampleNow = "2026-11-01T00:00:00.000Z" /\
  Iso8601.format 951782400123 = "2000-02-29T00:00:00.123Z" /\
  Iso8601.format (-1) = "1969-12-31T23:59:59.999Z" /\
  split_T_0 (Iso8601.format sampleNow) = "2026-11-01" /\
  Iso8601.parse (Iso8601.format 951782400123) = Num (inject_Z 951782400123) /\
  Iso8601.parse "2026-02-30" = Iso8601.parse "2026-03-02" /\
  Iso8601.parse "11/01/2026" = Num (inject_Z sampleNow) /\
  Iso8601.parse "2026-13-01" = NaN /\
  Iso8601.parse "next spring" = NaN.
Proof. repeat split; vm_compute; reflexivity. Qed.

(** ** The export formatter: proofs *)

Lemma mapM_map {A B} (f : B -> option A) (g : A -> B) (l : list A) :
  (forall x, f (g x) = Some x) -> mapM f (map g l) = Some l.
Proof.
  intros Hfg. induction l as [|x l IH]; simpl; [done|].
  by rewrite Hfg; simpl; rewrite IH.
Qed.

Lemma Firearm_ofJSON_toJSON (gun : Firearm.t) :
  Firearm_ofJSON (Firearm_toJSON gun) = Some gun.
Proof. by destruct gun. Qed.

Lemma Maintenance_ofJSON_toJSON (item : Maintenance.t) :
  Maintenance_ofJSON (Maintenance_toJSON item) = Some item.
Proof. by destruct item as [? ? ? [?|] ? ? ?]. Qed.

Lemma Training_ofJSON_toJSON (item : Training.t) :
  Training_ofJSON (Training_toJSON item) = Some item.
Proof. by destruct item as [? ? ? ? [?|] ? ? [?|] ?]. Qed.

Lemma Permit_ofJSON_toJSON (permit : Permit.t) :
  Permit_ofJSON (Permit_toJSON permit) = Some permit.
Proof. by destruct permit. Qed.

Lemma Settings_ofJSON_toJSON (s : Settings.t) :
  Settings_ofJSON (Settings_toJSON s) = Some s.
Proof. by destruct s as [? []]. Qed.

Section ExportClaims.
Context `{Host} {R : Reading}.

(** C7: the full backup holds the four collections and the settings as
    they are in the snapshot, and the time of the export, under the six
    names [firearms], [maintenance], [training], [permits], [settings] and
    [exportDate]; loading the document back gives the snapshot it was made
    from. *)
Theorem exportData_round_trip (data : Data) (now : Z) :
  let doc := document (exportData data now) in
  keys doc = ["firearms"; "maintenance"; "training"; "permits"; "settings";
              "exportDate"] /\
  member "firearms" doc = Some (JArray (map Firearm_toJSON (firearms data))) /\
  member "maintenance" doc = Some (JArray (map Maintenance_toJSON (maintenance data))) /\
  member "training" doc = Some (JArray (map Training_toJSON (training data))) /\
  member "permits" doc = Some (JArray (map Permit_toJSON (permits data))) /\
  member "settings" doc = Some (Settings_toJSON (settings data)) /\
  member "exportDate" doc = Some (JString (toISOString now)) /\
  loadBackup doc = Some data.
Proof.
  repeat split. destruct data as [fs ms ts ps st].
  unfold loadBackup.
  cbn -[mapM Firearm_toJSON Maintenance_toJSON Training_toJSON Permit_toJSON
        Settings_toJSON Settings_ofJSON].
  rewrite (mapM_map _ _ _ Firearm_ofJSON_toJSON),
          (mapM_map _ _ _ Maintenance_ofJSON_toJSON),
          (mapM_map _ _ _ Training_ofJSON_toJSON),
          (mapM_map _ _ _ Permit_ofJSON_toJSON).
  cbn -[Settings_toJSON Settings_ofJSON].
  by rewrite Settings_ofJSON_toJSON.
Qed.

(** C8: the theft report lists one item per firearm, in order, and each
    item has exactly the properties [makeModel], [serial], [caliber],
    [type], [purchaseDate] and [estimatedValue]: the first five are the
    firearm's, and [estimatedValue] is the firearm's price, or
    ["[ESTIMATED VALUE]"] when the price is empty; [id], [notes] and
    [createdAt] are not in it. *)
Theorem exportTheftReport_projection (data : Data) (now : Z) :
  exists items : list json,
    member "stolenItems" (document (exportTheftReport data now)) = Some (JArray items) /\
    Forall2
      (fun gun item =>
         keys item = ["makeModel"; "serial"; "caliber"; "type"; "purchaseDate";
                      "estimatedValue"] /\
         member "makeModel" item = Some (JString (Firearm.makeModel gun)) /\
         member "serial" item = Some (JString (Firearm.serial gun)) /\
         member "caliber" item = Some (JString (Firearm.caliber gun)) /\
         member "type" item = Some (JString (Firearm.type gun)) /\
         member "purchaseDate" item = Some (JString (Firearm.purchaseDate gun)) /\
         member "estimatedValue" item =
           Some (JString (if decide (Firearm.price gun = "")
                          then "[ESTIMATED VALUE]" else Firearm.price gun)) /\
         member "id" item = None /\
         member "notes" item = None /\
         member "createdAt" item = None)
      (firearms data) items.
Proof.
  eexists. split; [reflexivity|].
  induction (firearms data) as [|gun guns IH]; simpl; constructor; [|exact IH].
  repeat split. simpl. unfold or_else.
  by destruct (Firearm.price gun).
Qed.

End ExportClaims.

(** ** The facade: proofs *)

Lemma bind_Returned {A B} (m : M A) (f : A -> M B) (app app'' : App) (b : B) :
  (m ≫= f) app = (Returned b, app'') ->
  exists a app', m app = (Returned a, app') /\ f a app' = (Returned b, app'').
Proof.
  unfold mbind, M_bind. destruct (m app) as [[a|e] app']; [eauto|discriminate].
Qed.

Lemma bind_Thrown {A B} (m : M A) (f : A -> M B) (app app' : App) (e : Error) :
  m app = (Thrown e, app') -> (m ≫= f) app = (Thrown e, app').
Proof. unfold mbind, M_bind. by intros ->. Qed.


Lemma bind_cases {A B} (m : M A) (f : A -> M B) (app app'' : App) (res : completion B) :
  (m ≫= f) app = (res, app'') ->
  (exists e, m app = (Thrown e, app'') /\ res = Thrown e) \/
  (exists a app', m app = (Returned a, app') /\ f a app' = (res, app'')).
Proof.
  unfold mbind, M_bind. destruct (m app) as [[a|e] app'].
  - right. eauto.
  - intros [= <- <-]. left. eauto.
Qed.

(** Runs the state-passing steps of a method on an application object that
    is given by its fields. *)
Tactic Notation "run_M" reference(method) :=
  cbv [method mbind M_bind mret M_ret get modify emit set_db set_data set_view
       throw try_catch db currentTab data view log
       firearms maintenance training permits settings
       gunCount maintenanceCount trainingCount alertCount firearmList
       maintenanceList trainingList permitList alertList complianceInfo
       modalShown form fst snd].

Ltac fields app :=
  destruct app as [?adb ?atab [?fs ?ms ?ts ?ps ?st] [? ? ? ? ? ? ? ? ? ? ? ?] ?alog].

Section FacadeFacts.
Context `{Host} {R : Reading}.

(** [addItem] resolves exactly when the database is open, the store works
    and the key is free; it then holds the item under its key. *)
Lemma addItem_Returned {K A} `{Countable K}
    (os : objectStore K A) (item : A) (app app' : App) (k : K) :
  addItem os item app = (Returned k, app') ->
  exists d,
    db app = Some d /\
    failing d (storeName os) = false /\
    rows os d !! keyPath os item = None /\
    k = keyPath os item /\
    app' = mkApp (Some (with_rows os (<[keyPath os item := item]> (rows os d)) d))
                 (currentTab app) (data app) (view app)
                 (log app ++ [RequestAdd (storeName os)]).
Proof.
  fields app. run_M addItem. destruct adb as [d|]; [|discriminate].
  destruct (failing d (storeName os)) eqn:Hf; [discriminate|].
  destruct (rows os d !! keyPath os item) eqn:Hk; [discriminate|].
  intros [= <- <-]. exists d. by repeat split.
Qed.

(** [addItem] that does not resolve leaves the database, the snapshot and
    the view as they are. *)
Lemma addItem_Thrown {K A} `{Countable K}
    (os : objectStore K A) (item : A) (app app' : App) (e : Error) :
  addItem os item app = (Thrown e, app') ->
  db app' = db app /\ data app' = data app /\ view app' = view app.
Proof.
  fields app. run_M addItem. destruct adb as [d|].
  - destruct (failing d (storeName os)).
    + by intros [= <- <-].
    + destruct (rows os d !! keyPath os item); [|discriminate].
      by intros [= <- <-].
  - by intros [= <- <-].
Qed.

(** [addItem] of a key that the store holds is rejected, and nothing but the
    log changes. *)
Lemma addItem_ConstraintError {K A} `{Countable K}
    (os : objectStore K A) (item : A) (app : App) (d : IDBDatabase) :
  db app = Some d ->
  failing d (storeName os) = false ->
  is_Some (rows os d !! keyPath os item) ->
  addItem os item app =
    (Thrown ConstraintError,
     mkApp (db app) (currentTab app) (data app) (view app)
           (log app ++ [RequestAdd (storeName os)])).
Proof.
  fields app. cbn. intros -> Hf [x Hx]. run_M addItem. by rewrite Hf, Hx.
Qed.

Lemma addItem_again {K A} `{Countable K}
    (os : objectStore K A) (item : A) (app app1 app2 : App) (k : K) :
  lawful os ->
  addItem os item app = (Returned k, app1) ->
  db app2 = db app1 ->
  addItem os item app2 =
    (Thrown ConstraintError,
     mkApp (db app2) (currentTab app2) (data app2) (view app2)
           (log app2 ++ [RequestAdd (storeName os)])).
Proof.
  intros Hos Hadd Hdb.
  apply addItem_Returned in Hadd as (d & _ & Hf & _ & _ & ->). simpl in Hdb.
  eapply addItem_ConstraintError; [exact Hdb| |].
  - by rewrite (proj2 (Hos _ _)).
  - rewrite (proj1 (Hos _ _)), lookup_insert_eq. by eexists.
Qed.

(** The steps of the create operations after [addItem]: none throws, and
    each is a function of the application object. *)
Lemma saveFirearm_rest (now : Z) (gun : Firearm.t) (app : App) :
  exists app',
    (set_data (fun d => mkData (firearms d ++ [gun]) (maintenance d) (training d)
                               (permits d) (settings d)) ≫= fun _ =>
     updateInventory ≫= fun _ => updateDashboard now ≫= fun _ => closeModal ≫= fun _ =>
     set_view (fun v =>
       mkView (gunCount v) (maintenanceCount v) (trainingCount v) (alertCount v)
              (firearmList v) (maintenanceList v) (trainingList v) (permitList v)
              (alertList v) (complianceInfo v) (modalShown v) emptyForm)) app
    = (Returned tt, app') /\
    db app' = db app /\
    data app' = mkData (firearms (data app) ++ [gun]) (maintenance (data app))
                       (training (data app)) (permits (data app)) (settings (data app)) /\
    dashboardFresh app' now /\
    firearmList (view app') = Some (firearms (data app')) /\
    alertList (view app') = alertList (view app).
Proof.
  fields app. eexists. split.
  - run_M updateInventory. cbv [updateDashboard closeModal]. run_M updateInventory.
    reflexivity.
  - by repeat split.
Qed.

Lemma addMaintenance_rest (now : Z) (item : Maintenance.t) (app : App) :
  exists app',
    (set_data (fun d => mkData (firearms d) (maintenance d ++ [item]) (training d)
                               (permits d) (settings d)) ≫= fun _ =>
     updateMaintenance ≫= fun _ => updateDashboard now) app
    = (Returned tt, app') /\
    db app' = db app /\
    data app' = mkData (firearms (data app)) (maintenance (data app) ++ [item])
                       (training (data app)) (permits (data app)) (settings (data app)) /\
    dashboardFresh app' now /\
    maintenanceList (view app') = Some (maintenance (data app')) /\
    alertList (view app') = alertList (view app).
Proof.
  fields app. eexists. split.
  - run_M updateMaintenance. cbv [updateDashboard]. run_M updateMaintenance.
    reflexivity.
  - by repeat split.
Qed.

Lemma addTraining_rest (now : Z) (item : Training.t) (app : App) :
  exists app',
    (set_data (fun d => mkData (firearms d) (maintenance d) (training d ++ [item])
                               (permits d) (settings d)) ≫= fun _ =>
     updateTraining ≫= fun _ => updateDashboard now) app
    = (Returned tt, app') /\
    db app' = db app /\
    data app' = mkData (firearms (data app)) (maintenance (data app))
                       (training (data app) ++ [item]) (permits (data app))
                       (settings (data app)) /\
    dashboardFresh app' now /\
    trainingList (view app') = Some (training (data app')) /\
    alertList (view app') = alertList (view app).
Proof.
  fields app. eexists. split.
  - run_M updateTraining. cbv [updateDashboard]. run_M updateTraining.
    reflexivity.
  - by repeat split.
Qed.

(** The rest of [addPermit]: it returns or throws as the reading of
    [updateComplianceInfo] does, after the permit list and the alert list
    have been written. *)
Lemma addPermit_rest (now : Z) (permit : Permit.t) (app : App) :
  exists app',
    (set_data (fun d => mkData (firearms d) (maintenance d) (training d)
                               (permits d ++ [permit]) (settings d)) ≫= fun _ =>
     updateCompliance now) app
    = (match complianceInfoOf (settings (data app)) with
       | Returned _ => Returned tt
       | Thrown e => Thrown e
       end, app') /\
    db app' = db app /\
    data app' = mkData (firearms (data app)) (maintenance (data app))
                       (training (data app)) (permits (data app) ++ [permit])
                       (settings (data app)) /\
    alertListFresh app' now /\
    permitList (view app') =
      Some (map (fun permit => (permit, isPermitExpiringSoon permit now))
                (permits (data app'))).
Proof.
  fields app. cbn [data settings].
  destruct (complianceInfoOf st) as [html|e] eqn:Hc; eexists; split.
  1,3: run_M updateCompliance; cbv [updatePermits updateAlerts updateComplianceInfo];
       run_M updateCompliance; rewrite Hc; reflexivity.
  all: by repeat split.
Qed.

End FacadeFacts.

Section FacadeSteps.
Context `{Host} {R : Reading}.




(** [saveFirearm] by cases on the make/model of the form. *)
Lemma saveFirearm_unfold (now : Z) (app : App) :
  saveFirearm now app =
    if truthy (firearmMakeModel (form (view app))) then
      (addItem firearmsOS (firearmOfForm (form (view app)) now) ≫= fun _ =>
       set_data (fun d => mkData (firearms d ++ [firearmOfForm (form (view app)) now])
                                 (maintenance d) (training d) (permits d) (settings d))
       ≫= fun _ =>
       updateInventory ≫= fun _ => updateDashboard now ≫= fun _ => closeModal ≫= fun _ =>
       set_view (fun v =>
         mkView (gunCount v) (maintenanceCount v) (trainingCount v) (alertCount v)
                (firearmList v) (maintenanceList v) (trainingList v) (permitList v)
                (alertList v) (complianceInfo v) (modalShown v) emptyForm)) app
    else emit (WindowAlert "Make/Model is required") app.
Proof.
  unfold saveFirearm, mbind at 1, M_bind at 1, get.
  cbn beta iota zeta delta [Firearm.makeModel firearmOfForm].
  by destruct (truthy _).
Qed.

(** What a create operation that returns has done: the database held no
    row under [now] in the store of the operation, and holds the new record
    there now; the snapshot has the record at the end of its collection;
    the lists and counts of the operation are recomputed. *)
Lemma run_Returned (op : Mutation) (now : Z) (app app' : App) :
  run op now app = (Returned tt, app') ->
  accepted op app ->
  appended op now app app' /\ refreshed op now app app' /\
  exists d, db app = Some d /\
    match op with
    | SaveFirearm =>
        firearmsRows d !! now = None /\
        exists gun, Firearm.id gun = now /\
          db app' = Some (with_rows firearmsOS (<[now := gun]> (firearmsRows d)) d)
    | AddMaintenance =>
        maintenanceRows d !! now = None /\
        exists item, Maintenance.id item = now /\
          db app' = Some (with_rows maintenanceOS (<[now := item]> (maintenanceRows d)) d)
    | AddTraining =>
        trainingRows d !! now = None /\
        exists item, Training.id item = now /\
          db app' = Some (with_rows trainingOS (<[now := item]> (trainingRows d)) d)
    | AddPermit =>
        permitsRows d !! now = None /\
        exists permit, Permit.id permit = now /\
          db app' = Some (with_rows permitsOS (<[now := permit]> (permitsRows d)) d)
    end.
Proof.
  destruct op; simpl; intros Hrun Hok.
  - rewrite saveFirearm_unfold in Hrun. apply truthy_true in Hok. rewrite Hok in Hrun.
    apply bind_Returned in Hrun as (k & app1 & Hadd & Hrest).
    apply addItem_Returned in Hadd as (d & Hdb & _ & Hfree & _ & ->).
    destruct (saveFirearm_rest now (firearmOfForm (form (view app)) now)
                (mkApp (Some (with_rows firearmsOS
                                (<[keyPath firearmsOS (firearmOfForm (form (view app)) now)
                                   := firearmOfForm (form (view app)) now]>
                                   (rows firearmsOS d)) d))
                       (currentTab app) (data app) (view app)
                       (log app ++ [RequestAdd (storeName firearmsOS)])))
      as (app'' & Hrun' & Hdb' & Hdata' & Hfresh & Hlist & Halerts).
    rewrite Hrun' in Hrest. injection Hrest as <-.
    split; [by exists (firearmOfForm (form (view app)) now)|].
    split; [done|]. exists d. split; [done|]. split; [done|].
    by exists (firearmOfForm (form (view app)) now).
  - apply bind_Returned in Hrun as (k & app1 & Hadd & Hrest).
    apply addItem_Returned in Hadd as (d & Hdb & _ & Hfree & _ & ->).
    match type of Hrest with
    | (set_data (fun d => mkData _ (_ ++ [?item]) _ _ _) ≫= _) ?app1 = _ =>
        destruct (addMaintenance_rest now item app1)
          as (app'' & Hrun' & Hdb' & Hdata' & Hfresh & Hlist & Halerts);
        rewrite Hrun' in Hrest; injection Hrest as <-;
        (split; [by exists item|]); (split; [done|]);
        exists d; (split; [done|]); (split; [done|]); by exists item
    end.
  - apply bind_Returned in Hrun as (k & app1 & Hadd & Hrest).
    apply addItem_Returned in Hadd as (d & Hdb & _ & Hfree & _ & ->).
    match type of Hrest with
    | (set_data (fun d => mkData _ _ (_ ++ [?item]) _ _) ≫= _) ?app1 = _ =>
        destruct (addTraining_rest now item app1)
          as (app'' & Hrun' & Hdb' & Hdata' & Hfresh & Hlist & Halerts);
        rewrite Hrun' in Hrest; injection Hrest as <-;
        (split; [by exists item|]); (split; [done|]);
        exists d; (split; [done|]); (split; [done|]); by exists item
    end.
  - apply bind_Returned in Hrun as (k & app1 & Hadd & Hrest).
    apply addItem_Returned in Hadd as (d & Hdb & _ & Hfree & _ & ->).
    match type of Hrest with
    | (set_data (fun d => mkData _ _ _ (_ ++ [?item]) _) ≫= _) ?app1 = _ =>
        destruct (addPermit_rest now item app1)
          as (app'' & Hrun' & Hdb' & Hdata' & Hfresh & Hlist);
        rewrite Hrun' in Hrest; injection Hrest as _ <-;
        (split; [by exists item|]); (split; [done|]);
        exists d; (split; [done|]); (split; [done|]); by exists item
    end.
Qed.

End FacadeSteps.

Section FacadeClaims.
Context `{Host} {R : Reading}.

(** C5: [saveFirearm] with an empty make/model tells the user that the
    make/model is required and returns: it sends no request to the store,
    the database and the snapshot are as before, and so is the result of
    every [getAll] afterwards. *)
Theorem saveFirearm_rejects_empty_makeModel (app : App) (now : Z) :
  firearmMakeModel (form (view app)) = "" ->
  exists app',
    saveFirearm now app = (Returned tt, app') /\
    log app' = log app ++ [WindowAlert "Make/Model is required"] /\
    db app' = db app /\
    data app' = data app /\
    view app' = view app /\
    forall (K A : Type) `(Countable K) (os : objectStore K A),
      (getAll os app').1 = (getAll os app).1.
Proof.
  intros E.
  exists (mkApp (db app) (currentTab app) (data app) (view app)
                (log app ++ [WindowAlert "Make/Model is required"])).
  split.
  - rewrite saveFirearm_unfold, E. reflexivity.
  - repeat split. intros K A ? ? os. fields app. run_M getAll.
    destruct adb as [d|]; [|done]. by destruct (failing d (storeName os)).
Qed.

(** C6 (amended): when [saveFirearm] (with a make/model), [addMaintenance]
    or [addTraining] returns, the snapshot holds the new record at the end
    of its collection, the list of that collection and the four counts of
    the dashboard have been recomputed from the snapshot, and the alert
    list is the one that the page showed before; when [addPermit] returns,
    the snapshot holds the new permit, and the permit list and the alert
    list have been recomputed from the snapshot. *)
Theorem mutation_refreshes (op : Mutation) (now : Z) (app app' : App) :
  run op now app = (Returned tt, app') ->
  accepted op app ->
  appended op now app app' /\ refreshed op now app app'.
Proof.
  intros Hrun Hok. destruct (run_Returned op now app app' Hrun Hok) as (? & ? & _).
  by split.
Qed.


(** After one of the operations without input has returned, the same
    operation at the same clock value is rejected by the store: both
    records have the id [now]. *)
Lemma create_again_same_clock (op : Mutation) (now : Z) (app app1 : App) :
  op <> SaveFirearm ->
  run op now app = (Returned tt, app1) ->
  exists app2,
    run op now app1 = (Thrown ConstraintError, app2) /\
    data app2 = data app1.
Proof.
  intros Hop Hrun.
  destruct (run_Returned op now app app1 Hrun) as (_ & _ & d & Hdb & Hstored).
  { by destruct op. }
  destruct op; [done|..]; destruct Hstored as (_ & item & Hid & Hdb1);
    simpl in Hrun |- *;
    apply bind_Returned in Hrun as (k & app' & Hadd & _);
    apply addItem_Returned in Hadd as (d' & Hdb' & Hf & _ & _ & _);
    assert (d' = d) as -> by congruence.
  - exists (mkApp (db app1) (currentTab app1) (data app1) (view app1)
                  (log app1 ++ [RequestAdd "maintenance"])).
    split; [|reflexivity]. apply bind_Thrown.
    apply (addItem_ConstraintError maintenanceOS _ _ _ Hdb1 Hf).
    cbn. rewrite lookup_insert_eq. by eexists.
  - exists (mkApp (db app1) (currentTab app1) (data app1) (view app1)
                  (log app1 ++ [RequestAdd "training"])).
    split; [|reflexivity]. apply bind_Thrown.
    apply (addItem_ConstraintError trainingOS _ _ _ Hdb1 Hf).
    cbn. rewrite lookup_insert_eq. by eexists.
  - exists (mkApp (db app1) (currentTab app1) (data app1) (view app1)
                  (log app1 ++ [RequestAdd "permits"])).
    split; [|reflexivity]. apply bind_Thrown.
    apply (addItem_ConstraintError permitsOS _ _ _ Hdb1 Hf).
    cbn. rewrite lookup_insert_eq. by eexists.
Qed.

End FacadeClaims.

Lemma saveFirearm_rejects_empty_makeModel_witness :
  exists app',
    saveFirearm (H := Iso8601.host) sampleNow freshApp = (Returned tt, app') /\
    log app' = log freshApp ++ [WindowAlert "Make/Model is required"] /\
    db app' = db freshApp /\
    data app' = data freshApp /\
    view app' = view freshApp /\
    forall (K A : Type) `(Countable K) (os : objectStore K A),
      (getAll os app').1 = (getAll os freshApp).1.
Proof.
  apply (saveFirearm_rejects_empty_makeModel (H := Iso8601.host) freshApp sampleNow).
  reflexivity.
Defined.

Lemma mutation_refreshes_witness :
  appended SaveFirearm sampleNow loadedApp
           (saveFirearm (H := Iso8601.host) sampleNow loadedApp).2 /\
  refreshed (H := Iso8601.host) SaveFirearm sampleNow loadedApp
            (saveFirearm (H := Iso8601.host) sampleNow loadedApp).2.
Proof.
  apply (mutation_refreshes (H := Iso8601.host) (R := entryRenamed) SaveFirearm sampleNow
           loadedApp).
  - vm_compute. reflexivity.
  - discriminate.
Defined.

(** C6, as the specification words it, fails: after startup on a database
    that holds a permit ten days before it expires, [saveFirearm] returns
    with the new firearm in the snapshot and the dashboard recomputed, but
    the alert list is what it was (the page has not shown any yet), while
    the alert list of the snapshot holds one high-priority alert. *)
Lemma saveFirearm_leaves_alert_list :
  (saveFirearm (H := Iso8601.host) sampleNow loadedApp).1 = Returned tt /\
  map Firearm.makeModel
      (firearms (data (saveFirearm (H := Iso8601.host) sampleNow loadedApp).2)) =
    ["Glock 19"] /\
  alertCount (view (saveFirearm (H := Iso8601.host) sampleNow loadedApp).2) =
    Some 1%nat /\
  alertList (view (saveFirearm (H := Iso8601.host) sampleNow loadedApp).2) = None /\
  generateAlerts (H := Iso8601.host)
    (data (saveFirearm (H := Iso8601.host) sampleNow loadedApp).2) sampleNow =
    [highAlert (samplePermit "2026-11-11") 10] /\
  ~ allDerivedFresh (H := Iso8601.host)
      (saveFirearm (H := Iso8601.host) sampleNow loadedApp).2 sampleNow.
Proof.
  assert (alertList (view (saveFirearm (H := Iso8601.host) sampleNow loadedApp).2)
          = None) as Hlist by (vm_compute; reflexivity).
  repeat split; try (vm_compute; reflexivity).
  intros [_ Hfresh]. unfold alertListFresh in Hfresh. congruence.
Qed.


(** ** The create operations: outcomes *)

Lemma is_Some_false {A} (o : option A) : bool_decide (is_Some o) = false <-> o = None.
Proof.
  rewrite bool_decide_eq_false. split.
  - intros Hn. destruct o; [|done]. destruct Hn. by eexists.
  - intros -> [x Hx]. discriminate.
Qed.

Lemma truthy_false (s : string) : truthy s = false <-> s = "".
Proof. destruct s; simpl; split; congruence. Qed.

Section Outcomes.
Context `{Host} {R : Reading}.

(** [addItem], case by case. *)
Lemma addItem_eq {K A} `{Countable K} (os : objectStore K A) (item : A) (app : App) :
  addItem os item app =
    match db app with
    | None => (Thrown TypeError, app)
    | Some d =>
        if failing d (storeName os) then
          (Thrown UnknownError,
           mkApp (db app) (currentTab app) (data app) (view app)
                 (log app ++ [RequestAdd (storeName os)]))
        else if bool_decide (is_Some (rows os d !! keyPath os item)) then
          (Thrown ConstraintError,
           mkApp (db app) (currentTab app) (data app) (view app)
                 (log app ++ [RequestAdd (storeName os)]))
        else
          (Returned (keyPath os item),
           mkApp (Some (with_rows os (<[keyPath os item := item]> (rows os d)) d))
                 (currentTab app) (data app) (view app)
                 (log app ++ [RequestAdd (storeName os)]))
    end.
Proof.
  fields app. run_M addItem. destruct adb as [d|]; [|done].
  destruct (failing d (storeName os)); [done|].
  destruct (rows os d !! keyPath os item) eqn:Hk.
  - rewrite bool_decide_eq_true_2; [done|by eexists].
  - rewrite bool_decide_eq_false_2; [done|]. by intros [? ?].
Qed.

(** What the steps after [addItem] leave alone. *)
Lemma saveFirearm_rest_view (now : Z) (gun : Firearm.t) (app : App) :
  exists app',
    (set_data (fun d => mkData (firearms d ++ [gun]) (maintenance d) (training d)
                               (permits d) (settings d)) ≫= fun _ =>
     updateInventory ≫= fun _ => updateDashboard now ≫= fun _ => closeModal ≫= fun _ =>
     set_view (fun v =>
       mkView (gunCount v) (maintenanceCount v) (trainingCount v) (alertCount v)
              (firearmList v) (maintenanceList v) (trainingList v) (permitList v)
              (alertList v) (complianceInfo v) (modalShown v) emptyForm)) app
    = (Returned tt, app') /\
    form (view app') = emptyForm /\
    modalShown (view app') = false /\
    log app' = log app /\
    currentTab app' = currentTab app.
Proof.
  fields app. eexists. split.
  - run_M updateInventory. cbv [updateDashboard closeModal]. run_M updateInventory.
    reflexivity.
  - by repeat split.
Qed.

Lemma addPermit_rest_counts (now : Z) (permit : Permit.t) (app : App) :
  exists app',
    (set_data (fun d => mkData (firearms d) (maintenance d) (training d)
                               (permits d ++ [permit]) (settings d)) ≫= fun _ =>
     updateCompliance now) app
    = (ending AddPermit app, app') /\
    gunCount (view app') = gunCount (view app) /\
    maintenanceCount (view app') = maintenanceCount (view app) /\
    trainingCount (view app') = trainingCount (view app) /\
    alertCount (view app') = alertCount (view app).
Proof.
  fields app. cbn [ending data settings].
  destruct (complianceInfoOf st) as [html|e] eqn:Hc; eexists; split.
  1,3: run_M updateCompliance; cbv [updatePermits updateAlerts updateComplianceInfo];
       run_M updateCompliance; rewrite Hc; reflexivity.
  all: by repeat split.
Qed.

(** A create operation either stores and appends its record and refreshes
    its part of the page, or leaves the database, the snapshot and the page
    as they are: then it has thrown, unless the input was not accepted. *)
Lemma run_effect (op : Mutation) (now : Z) (app app' : App) (res : completion unit) :
  run op now app = (res, app') ->
  (res = ending op app /\ accepted op app /\
   exists d, db app = Some d /\ failing d (storeOf op) = false /\
     idTaken op now d = false /\ stored op now app d app' /\
     refreshed op now app app') \/
  (db app' = db app /\ data app' = data app /\ view app' = view app /\
   (accepted op app -> exists e, res = Thrown e) /\
   (~ accepted op app -> res = Returned tt)).
Proof.
  destruct op; simpl; intros Hrun.
  - rewrite saveFirearm_unfold in Hrun.
    destruct (truthy (firearmMakeModel (form (view app)))) eqn:Hok.
    + apply truthy_true in Hok.
      apply bind_cases in Hrun as [(e & Hadd & ->) | (k & app1 & Hadd & Hrest)].
      * right. apply addItem_Thrown in Hadd as (? & ? & ?).
        repeat split; try done. by exists e.
      * left. apply addItem_Returned in Hadd as (d & Hdb & Hf & Hfree & _ & ->).
        destruct (saveFirearm_rest now (firearmOfForm (form (view app)) now)
                    (mkApp (Some (with_rows firearmsOS
                                    (<[keyPath firearmsOS (firearmOfForm (form (view app)) now)
                                       := firearmOfForm (form (view app)) now]>
                                       (rows firearmsOS d)) d))
                           (currentTab app) (data app) (view app)
                           (log app ++ [RequestAdd (storeName firearmsOS)])))
          as (app'' & Hrun' & Hdb' & Hdata' & Hfresh & Hlist & Halerts).
        rewrite Hrun' in Hrest. injection Hrest as <- <-.
        split; [done|]. split; [done|]. exists d.
        split; [done|]. split; [done|].
        split; [by apply is_Some_false|]. by split.
    + right. injection Hrun as <- <-. apply truthy_false in Hok.
      by repeat split.
  - apply bind_cases in Hrun as [(e & Hadd & ->) | (k & app1 & Hadd & Hrest)].
    + right. apply addItem_Thrown in Hadd as (? & ? & ?).
      repeat split; try done. by exists e.
    + left. apply addItem_Returned in Hadd as (d & Hdb & Hf & Hfree & _ & ->).
      match type of Hrest with
      | (set_data (fun d => mkData _ (_ ++ [?item]) _ _ _) ≫= _) ?app1 = _ =>
          destruct (addMaintenance_rest now item app1)
            as (app'' & Hrun' & Hdb' & Hdata' & Hfresh & Hlist & Halerts)
      end.
      rewrite Hrun' in Hrest. injection Hrest as <- <-.
      split; [done|]. split; [done|]. exists d.
      split; [done|]. split; [done|].
      split; [by apply is_Some_false|]. by split.
  - apply bind_cases in Hrun as [(e & Hadd & ->) | (k & app1 & Hadd & Hrest)].
    + right. apply addItem_Thrown in Hadd as (? & ? & ?).
      repeat split; try done. by exists e.
    + left. apply addItem_Returned in Hadd as (d & Hdb & Hf & Hfree & _ & ->).
      match type of Hrest with
      | (set_data (fun d => mkData _ _ (_ ++ [?item]) _ _) ≫= _) ?app1 = _ =>
          destruct (addTraining_rest now item app1)
            as (app'' & Hrun' & Hdb' & Hdata' & Hfresh & Hlist & Halerts)
      end.
      rewrite Hrun' in Hrest. injection Hrest as <- <-.
      split; [done|]. split; [done|]. exists d.
      split; [done|]. split; [done|].
      split; [by apply is_Some_false|]. by split.
  - apply bind_cases in Hrun as [(e & Hadd & ->) | (k & app1 & Hadd & Hrest)].
    + right. apply addItem_Thrown in Hadd as (? & ? & ?).
      repeat split; try done. by exists e.
    + left. apply addItem_Returned in Hadd as (d & Hdb & Hf & Hfree & _ & ->).
      match type of Hrest with
      | (set_data (fun d => mkData _ _ _ (_ ++ [?item]) _) ≫= _) ?app1 = _ =>
          destruct (addPermit_rest now item app1)
            as (app'' & Hrun' & Hdb' & Hdata' & Hfresh & Hlist)
      end.
      rewrite Hrun' in Hrest. injection Hrest as <- <-.
      split; [done|]. split; [done|]. exists d.
      split; [done|]. split; [done|].
      split; [by apply is_Some_false|]. by split.
Qed.

End Outcomes.

(** ** Ids: proofs *)

Lemma collectionOK_nil {A} (key : A -> Z) (store : option (gmap Z A)) :
  collectionOK key [] store.
Proof. split; [constructor|]. intros m _ r Hr. by apply elem_of_nil in Hr. Qed.

Lemma recordsOf_Permutation {K A} `{Countable K} (leb : K -> K -> bool) (m : gmap K A) :
  recordsOf leb m ≡ₚ (map_to_list m).*2.
Proof. unfold recordsOf. by rewrite merge_sort_Permutation. Qed.

(** The records of a store whose rows are stored under their ids come in
    ascending order of the ids. *)
Lemma recordsOf_ascending {A} (key : A -> Z) (m : gmap Z A) :
  keyedBy key m -> Sorted Z.le (key <$> recordsOf Z.leb m).
Proof.
  intros Hkey. unfold recordsOf. rewrite <- list_fmap_compose.
  assert ((key ∘ snd) <$> merge_sort (byKey Z.leb) (map_to_list m) =
          fst <$> merge_sort (byKey Z.leb) (map_to_list m)) as ->.
  { apply Forall_fmap_ext_1, Forall_forall. intros [k r] Hin.
    rewrite merge_sort_Permutation in Hin.
    apply elem_of_map_to_list in Hin. simpl. eauto. }
  apply (Sorted_fmap fst (byKey Z.leb)).
  - intros x y Hxy. unfold byKey in Hxy. apply Is_true_true in Hxy. lia.
  - apply Sorted_merge_sort. intros x y. unfold byKey.
    destruct (Z.leb_spec x.1 y.1); [by left|right].
    apply Is_true_true, Z.leb_le. lia.
Qed.

Lemma collectionOK_values {A} (key : A -> Z) (m : gmap Z A) :
  keyedBy key m -> collectionOK key (recordsOf Z.leb m) (Some m).
Proof.
  intros Hkey. split.
  - rewrite recordsOf_Permutation.
    assert (key <$> (map_to_list m).*2 = (map_to_list m).*1) as ->.
    { rewrite <- list_fmap_compose. apply Forall_fmap_ext_1, Forall_forall.
      intros [k r] Hin. apply elem_of_map_to_list in Hin. simpl. eauto. }
    apply NoDup_fst_map_to_list.
  - intros m' [= <-] r Hin. rewrite recordsOf_Permutation in Hin.
    apply list_elem_of_fmap in Hin as ([k r'] & -> & Hin).
    apply elem_of_map_to_list in Hin. simpl. rewrite (Hkey _ _ Hin). by eexists.
Qed.

(** A record whose key is free joins the collection, and a row the store. *)
Lemma collectionOK_add {A} (key : A -> Z) (l : list A) (m : gmap Z A) (x y : A) (k : Z) :
  collectionOK key l (Some m) ->
  m !! k = None ->
  key x = k ->
  collectionOK key (l ++ [x]) (Some (<[k := y]> m)).
Proof.
  intros [Hnd Hin] Hfree <-. split.
  - rewrite fmap_app. apply NoDup_app. split; [done|]. split.
    + intros k Hk Hx. apply list_elem_of_fmap in Hk as (r & -> & Hr).
      apply list_elem_of_singleton in Hx.
      destruct (Hin m eq_refl r Hr) as [z Hz]. congruence.
    + apply NoDup_singleton.
  - intros m' [= <-] r Hr. apply elem_of_app in Hr as [Hr|Hr].
    + destruct (decide (key x = key r)) as [->|Hne].
      * rewrite lookup_insert_eq. by eexists.
      * rewrite lookup_insert_ne; [|done]. by apply (Hin m).
    + apply list_elem_of_singleton in Hr as ->. rewrite lookup_insert_eq. by eexists.
Qed.

Lemma consistent_same (app app' : App) :
  db app' = db app -> data app' = data app -> consistent app -> consistent app'.
Proof. unfold consistent. by intros -> ->. Qed.

Section Ids.
Context `{Host} {R : Reading}.

Lemma run_consistent (op : Mutation) (now : Z) (app : App) :
  consistent app -> consistent (run op now app).2.
Proof.
  intros Hok. destruct (run op now app) as [res app'] eqn:Hrun. cbn [snd].
  apply run_effect in Hrun
    as [(_ & _ & d & Hdb & _ & Hfree & Hstored & _) | (Hdb & Hdata & _)].
  2: by apply (consistent_same app).
  destruct Hok as (Hf & Hm & Ht & Hp). rewrite Hdb in Hf, Hm, Ht, Hp.
  unfold consistent.
  destruct op; simpl in Hstored, Hfree; destruct Hstored as [-> ->];
    apply is_Some_false in Hfree;
    cbn [data firearms maintenance training permits option_fmap option_map fmap
         with_rows firearmsOS maintenanceOS trainingOS permitsOS
         firearmsRows maintenanceRows trainingRows permitsRows];
    (split; [|split; [|split]]); try assumption. all: by apply collectionOK_add.
Qed.

(** What startup has loaded when the request of [indexedDB.open] has ended
    with the database: the stores are read in the order firearms,
    maintenance, training, permits, settings, up to the first one that
    cannot be read. *)
Lemma init_data (form0 : FirearmForm) (d : IDBDatabase) (now : Z) :
  let app' := (init (Request (Some d)) now (constructor form0)).2 in
  let r1 := negb (failing d "firearms") in
  let r2 := r1 && negb (failing d "maintenance") in
  let r3 := r2 && negb (failing d "training") in
  let r4 := r3 && negb (failing d "permits") in
  let r5 := r4 && negb (failing d "settings") in
  db app' = Some d /\
  firearms (data app') = (if r1 then recordsOf Z.leb (firearmsRows d) else []) /\
  maintenance (data app') = (if r2 then recordsOf Z.leb (maintenanceRows d) else []) /\
  training (data app') = (if r3 then recordsOf Z.leb (trainingRows d) else []) /\
  permits (data app') = (if r4 then recordsOf Z.leb (permitsRows d) else []) /\
  settings (data app') =
    (if r5 then
       match recordsOf String.leb (settingsRows d) with
       | row :: _ => value row
       | [] => defaultSettings
       end
     else defaultSettings).
Proof.
  cbv zeta.
  run_M init. cbv [initDB loadData updateDashboard constructor getAll]. run_M init.
  cbn [storeName rows keyLeb firearmsOS maintenanceOS trainingOS permitsOS settingsOS].
  repeat (match goal with
          | |- context [failing d ?name] => destruct (failing d name)
          end; run_M init; cbn [negb andb]).
  all: try match goal with
           | |- context [match ?l with [] => _ | _ :: _ => _ end] => destruct l
           end.
  all: run_M init; by repeat split.
Qed.

(** Startup loads each collection from its store, or leaves it empty. *)
Lemma init_consistent (form0 : FirearmForm) (indexedDB : OpenAttempt) (now : Z) :
  (forall d, indexedDB = Request (Some d) -> keyedDB d) ->
  consistent (init indexedDB now (constructor form0)).2.
Proof.
  intros Hkeyed. destruct indexedDB as [[d|]|e].
  - destruct (Hkeyed d eq_refl) as (Kf & Km & Kt & Kp).
    destruct (init_data form0 d now) as (Hdb & Hf & Hm & Ht & Hp & _).
    unfold consistent. rewrite Hdb, Hf, Hm, Ht, Hp. cbn [fmap option_fmap option_map].
    (split; [|split; [|split]]);
      match goal with
      | |- context [if ?b then _ else _] => destruct b
      end; first [ apply collectionOK_nil | by apply collectionOK_values ].
  - unfold consistent. cbn.
    repeat split; try constructor; intros m Hm; discriminate.
  - unfold consistent. cbn.
    repeat split; try constructor; intros m Hm; discriminate.
Qed.

Theorem reachable_consistent (app : App) : reachable app -> consistent app.
Proof.
  induction 1 as [form0 indexedDB now Hkeyed | input app _ IH | op now app _ IH].
  - by apply init_consistent.
  - exact IH.
  - by apply run_consistent.
Qed.

(** X15: in every state of the application, the ids of each collection of
    the snapshot are pairwise distinct: the store refuses a key that it holds. *)
Theorem reachable_distinctIds (app : App) : reachable app -> distinctIds (data app).
Proof.
  intros Hr. destruct (reachable_consistent app Hr) as ([? _] & [? _] & [? _] & [? _]).
  by repeat split.
Qed.

(** C4: in every state of the application the ids of each collection are
    pairwise distinct, and every create operation keeps it so. The
    operation leaves the snapshot as it is or appends one record, whose id
    is the clock value of its creation; the records that were there stay,
    with their ids, and so do the rows of the stores, under their keys. *)
Theorem ids_assigned_once_and_distinct (app : App) :
  reachable app ->
  distinctIds (data app) /\
  forall (op : Mutation) (now : Z),
    let app' := (run op now app).2 in
    (data app' = data app \/ appended op now app app') /\
    distinctIds (data app') /\
    (forall d d', db app = Some d -> db app' = Some d' -> keepsRows d d').
Proof.
  intros Hr. pose proof (reachable_consistent app Hr) as Hc.
  assert (forall a, consistent a -> distinctIds (data a)) as Hdistinct.
  { intros a ([? _] & [? _] & [? _] & [? _]). by repeat split. }
  split; [by apply Hdistinct|]. intros op now. cbv zeta.
  split; [|split; [by apply Hdistinct, run_consistent|]].
  - destruct (run op now app) as [res app'] eqn:Hrun. cbn [snd].
    apply run_effect in Hrun
      as [(_ & _ & d & _ & _ & _ & Hstored & _) | (_ & Hdata & _)]; [|by left].
    right. destruct op; simpl in Hstored |- *; destruct Hstored as [_ ->];
      eexists; (split; [|reflexivity]); reflexivity.
  - destruct (run op now app) as [res app'] eqn:Hrun. cbn [snd].
    intros d d' Hd Hd'.
    apply run_effect in Hrun
      as [(_ & _ & d0 & Hdb & _ & Hfree & Hstored & _) | (Hdb & _)].
    + assert (d0 = d) as -> by congruence.
      destruct op; simpl in Hstored, Hfree; destruct Hstored as [Hdb' _];
        rewrite Hdb' in Hd'; injection Hd' as <-; apply is_Some_false in Hfree;
        unfold keepsRows; cbn; repeat split; try done; by apply insert_subseteq.
    + assert (d' = d) as -> by congruence. by repeat split.
Qed.

End Ids.

(** Two calls of [addMaintenance] while the clock shows the same
    millisecond: the first call returns, and its record has the id
    [sampleNow]; the second call builds a record with that id again, the
    store rejects it, and the collection still holds the one record. *)
Example addMaintenance_twice_same_millisecond :
  (addMaintenance (H := Iso8601.host) sampleNow freshApp).1 = Returned tt /\
  map Maintenance.id
      (maintenance (data (addMaintenance (H := Iso8601.host) sampleNow freshApp).2)) =
    [sampleNow] /\
  (addMaintenance (H := Iso8601.host) sampleNow
     (addMaintenance (H := Iso8601.host) sampleNow freshApp).2).1 =
    Thrown ConstraintError /\
  map Maintenance.id
      (maintenance
         (data (addMaintenance (H := Iso8601.host) sampleNow
                  (addMaintenance (H := Iso8601.host) sampleNow freshApp).2).2)) =
    [sampleNow].
Proof. repeat split; vm_compute; reflexivity. Qed.

Section OutcomeTheorems.
Context `{Host} {R : Reading}.

Lemma addItem_then {K A} `{Countable K}
    (os : objectStore K A) (item : A) (rest : K -> M unit) (app : App)
    (res : completion unit) :
  (forall k app1, data app1 = data app -> (rest k app1).1 = res) ->
  ((addItem os item ≫= rest) app).1 =
    match db app with
    | None => Thrown TypeError
    | Some d =>
        if failing d (storeName os) then Thrown UnknownError
        else if bool_decide (is_Some (rows os d !! keyPath os item))
             then Thrown ConstraintError
             else res
    end.
Proof.
  intros Hrest. unfold mbind, M_bind. rewrite addItem_eq.
  destruct (db app) as [d|]; [|done].
  destruct (failing d (storeName os)); [done|].
  destruct (bool_decide _); [done|]. by apply Hrest.
Qed.

(** X1: how a create operation whose input is accepted ends. It throws a
    [TypeError] without a database, the error of the store when the request
    fails, a [ConstraintError] when the store holds a row under the clock
    value. Otherwise the record is stored, and [saveFirearm],
    [addMaintenance] and [addTraining] return; [addPermit] then ends as
    [updateComplianceInfo] does, which the text of that method leaves
    open. *)
Theorem create_outcome (op : Mutation) (now : Z) (app : App) :
  accepted op app ->
  (run op now app).1 =
    match db app with
    | None => Thrown TypeError
    | Some d =>
        if failing d (storeOf op) then Thrown UnknownError
        else if idTaken op now d then Thrown ConstraintError
        else ending op app
    end /\
  (op <> AddPermit -> ending op app = Returned tt).
Proof.
  intros Hok. split; [|by destruct op].
  destruct op; simpl in Hok |- *.
  - rewrite saveFirearm_unfold. apply truthy_true in Hok. rewrite Hok.
    apply (addItem_then firearmsOS). intros k app1 _.
    by destruct (saveFirearm_rest now (firearmOfForm (form (view app)) now) app1)
      as (app'' & -> & _).
  - apply (addItem_then maintenanceOS). intros k app1 _.
    match goal with
    | |- ((set_data (fun d => mkData _ (_ ++ [?item]) _ _ _) ≫= _) _).1 = _ =>
        by destruct (addMaintenance_rest now item app1) as (app'' & -> & _)
    end.
  - apply (addItem_then trainingOS). intros k app1 _.
    match goal with
    | |- ((set_data (fun d => mkData _ _ (_ ++ [?item]) _ _) ≫= _) _).1 = _ =>
        by destruct (addTraining_rest now item app1) as (app'' & -> & _)
    end.
  - apply (addItem_then permitsOS). intros k app1 Hdata.
    match goal with
    | |- ((set_data (fun d => mkData _ _ _ (_ ++ [?item]) _) ≫= _) _).1 = _ =>
        destruct (addPermit_rest now item app1) as (app'' & -> & _)
    end.
    cbn [fst]. by rewrite Hdata.
Qed.

(** X2: a create operation that throws has changed neither the database
    nor the snapshot nor the page, with one exception: when
    [updateComplianceInfo] throws at the end of [addPermit], the permit is
    stored and appended already. *)
Theorem create_throw_effect
    (op : Mutation) (now : Z) (app app' : App) (e : Error) :
  run op now app = (Thrown e, app') ->
  (db app' = db app /\ data app' = data app /\ view app' = view app) \/
  (op = AddPermit /\
   complianceInfoOf (settings (data app)) = Thrown e /\
   exists d, db app = Some d /\ stored AddPermit now app d app').
Proof.
  intros Hrun.
  apply run_effect in Hrun
    as [(Hres & _ & d & Hdb & _ & _ & Hstored & _) | (? & ? & ? & _)]; [|by left].
  destruct op; try discriminate. right. split; [done|].
  simpl in Hres. split; [|by exists d].
  destruct (complianceInfoOf (settings (data app))); congruence.
Qed.

Lemma getAll_fst {K A} `{Countable K} (os : objectStore K A) (app : App) (d : IDBDatabase) :
  db app = Some d ->
  failing d (storeName os) = false ->
  (getAll os app).1 = Returned (recordsOf (keyLeb os) (rows os d)).
Proof.
  fields app. cbn. intros -> Hf. run_M getAll. by rewrite Hf.
Qed.

Lemma records_insert {A} (leb : Z -> Z -> bool) (m : gmap Z A) (k : Z) (x : A) :
  m !! k = None ->
  recordsOf leb (<[k := x]> m) ≡ₚ x :: recordsOf leb m.
Proof. intros Hk. by rewrite !recordsOf_Permutation, map_to_list_insert. Qed.

(** X3: when a create operation has returned, [getAll] of its store gives
    the records that it gave before and the new record, once; and the new
    record is the last one of the collection in the snapshot. *)
Theorem create_then_getAll (op : Mutation) (now : Z) (app app' : App) :
  run op now app = (Returned tt, app') ->
  accepted op app ->
  match op with
  | SaveFirearm =>
      exists before after,
        (getAll firearmsOS app).1 = Returned before /\
        (getAll firearmsOS app').1 = Returned after /\
        after ≡ₚ firearmOfForm (form (view app)) now :: before /\
        last (firearms (data app')) = Some (firearmOfForm (form (view app)) now)
  | AddMaintenance =>
      exists before after,
        (getAll maintenanceOS app).1 = Returned before /\
        (getAll maintenanceOS app').1 = Returned after /\
        after ≡ₚ maintenanceAt now :: before /\
        last (maintenance (data app')) = Some (maintenanceAt now)
  | AddTraining =>
      exists before after,
        (getAll trainingOS app).1 = Returned before /\
        (getAll trainingOS app').1 = Returned after /\
        after ≡ₚ trainingAt now :: before /\
        last (training (data app')) = Some (trainingAt now)
  | AddPermit =>
      exists before after,
        (getAll permitsOS app).1 = Returned before /\
        (getAll permitsOS app').1 = Returned after /\
        after ≡ₚ permitAt now :: before /\
        last (permits (data app')) = Some (permitAt now)
  end.
Proof.
  intros Hrun Hok.
  apply run_effect in Hrun
    as [(_ & _ & d & Hdb & Hf & Hfree & Hstored & _) | (_ & _ & _ & Hthrow & _)].
  2: { destruct (Hthrow Hok) as [e He]. discriminate. }
  destruct op; simpl in Hf, Hfree, Hstored; apply is_Some_false in Hfree;
    destruct Hstored as [Hdb' Hdata'].
  - eexists _, _. split; [by apply (getAll_fst firearmsOS _ d)|].
    split; [by apply (getAll_fst firearmsOS _ _ Hdb')|].
    split; [by apply records_insert|]. rewrite Hdata'. apply last_snoc.
  - eexists _, _. split; [by apply (getAll_fst maintenanceOS _ d)|].
    split; [by apply (getAll_fst maintenanceOS _ _ Hdb')|].
    split; [by apply records_insert|]. rewrite Hdata'. apply last_snoc.
  - eexists _, _. split; [by apply (getAll_fst trainingOS _ d)|].
    split; [by apply (getAll_fst trainingOS _ _ Hdb')|].
    split; [by apply records_insert|]. rewrite Hdata'. apply last_snoc.
  - eexists _, _. split; [by apply (getAll_fst permitsOS _ d)|].
    split; [by apply (getAll_fst permitsOS _ _ Hdb')|].
    split; [by apply records_insert|]. rewrite Hdata'. apply last_snoc.
Qed.

(** X4: [saveFirearm] that has stored a firearm leaves the form empty and
    the modal closed, so that [saveFirearm] once more, before the user has
    typed again, only tells that the make/model is required: it stores
    nothing and appends nothing. *)
Theorem saveFirearm_clears_form (now : Z) (app app' : App) :
  saveFirearm now app = (Returned tt, app') ->
  firearmMakeModel (form (view app)) <> "" ->
  form (view app') = emptyForm /\
  modalShown (view app') = false /\
  forall now', exists app'',
    saveFirearm now' app' = (Returned tt, app'') /\
    db app'' = db app' /\
    data app'' = data app' /\
    log app'' = log app' ++ [WindowAlert "Make/Model is required"].
Proof.
  intros Hrun Hok. rewrite saveFirearm_unfold in Hrun.
  apply truthy_true in Hok. rewrite Hok in Hrun.
  apply bind_Returned in Hrun as (k & app1 & _ & Hrest).
  destruct (saveFirearm_rest_view now (firearmOfForm (form (view app)) now) app1)
    as (app'' & Hrun' & Hform & Hmodal & _).
  rewrite Hrun' in Hrest. injection Hrest as <-.
  split; [done|]. split; [done|]. intros now'.
  exists (mkApp (db app'') (currentTab app'') (data app'') (view app'')
                (log app'' ++ [WindowAlert "Make/Model is required"])).
  split; [|done]. rewrite saveFirearm_unfold, Hform. reflexivity.
Qed.

End OutcomeTheorems.

(** ** Freshness of the page *)

Section Freshness.
Context `{Host} {R : Reading}.

Lemma generateAlerts_permits (d1 d2 : Data) (now : Z) :
  permits d1 = permits d2 -> generateAlerts d1 now = generateAlerts d2 now.
Proof. unfold generateAlerts. by intros ->. Qed.

Lemma calculateAlerts_permits (d1 d2 : Data) (now : Z) :
  permits d1 = permits d2 -> calculateAlerts d1 now = calculateAlerts d2 now.
Proof. unfold calculateAlerts. by intros ->. Qed.

(** A permit without an expiration date does not count. *)
Lemma calculateAlerts_snoc_blank (d d' : Data) (permit : Permit.t) (now : Z) :
  Permit.expirationDate permit = "" ->
  permits d' = permits d ++ [permit] ->
  calculateAlerts d' now = calculateAlerts d now.
Proof.
  intros Hblank Hp. rewrite !calculateAlerts_filter, Hp, List.filter_app. simpl.
  rewrite isPermitExpiringSoon_cases, Hblank. simpl. by rewrite app_nil_r.
Qed.

Lemma updateDashboard_effect (now : Z) (app : App) :
  exists app',
    updateDashboard now app = (Returned tt, app') /\
    dashboardFresh app' now /\
    db app' = db app /\ data app' = data app /\ log app' = log app /\
    currentTab app' = currentTab app /\
    firearmList (view app') = firearmList (view app) /\
    maintenanceList (view app') = maintenanceList (view app) /\
    trainingList (view app') = trainingList (view app) /\
    permitList (view app') = permitList (view app) /\
    alertList (view app') = alertList (view app) /\
    complianceInfo (view app') = complianceInfo (view app) /\
    modalShown (view app') = modalShown (view app) /\
    form (view app') = form (view app).
Proof.
  fields app. eexists. split; [run_M updateDashboard; reflexivity|]. by repeat split.
Qed.

(** [updateCompliance] writes the permit list and the alert list, and ends
    as [updateComplianceInfo] does. *)
Lemma updateCompliance_effect (now : Z) (app : App) :
  exists app',
    updateCompliance now app = (ending AddPermit app, app') /\
    alertListFresh app' now /\
    permitList (view app') =
      Some (map (fun permit => (permit, isPermitExpiringSoon permit now))
                (permits (data app'))) /\
    complianceInfo (view app') =
      match complianceInfoOf (settings (data app)) with
      | Returned html => Some html
      | Thrown _ => complianceInfo (view app)
      end /\
    db app' = db app /\ data app' = data app /\ log app' = log app /\
    currentTab app' = currentTab app /\
    gunCount (view app') = gunCount (view app) /\
    maintenanceCount (view app') = maintenanceCount (view app) /\
    trainingCount (view app') = trainingCount (view app) /\
    alertCount (view app') = alertCount (view app) /\
    firearmList (view app') = firearmList (view app) /\
    maintenanceList (view app') = maintenanceList (view app) /\
    trainingList (view app') = trainingList (view app) /\
    modalShown (view app') = modalShown (view app) /\
    form (view app') = form (view app).
Proof.
  fields app. cbn [ending data settings view complianceInfo].
  destruct (complianceInfoOf st) as [html|e] eqn:Hc; eexists; split.
  1,3: run_M updateCompliance; cbv [updatePermits updateAlerts updateComplianceInfo];
       run_M updateCompliance; rewrite Hc; reflexivity.
  all: by repeat split.
Qed.

(** X5: a create operation keeps the page current: when the four counts of
    the dashboard and the alert list were those of the snapshot at a clock
    value, they are those of the snapshot after the operation at that clock
    value, whether the operation returns or throws. *)
Theorem create_keeps_fresh (op : Mutation) (now : Z) (app : App) :
  allDerivedFresh app now ->
  allDerivedFresh (run op now app).2 now.
Proof.
  intros [(Hg & Hm & Ht & Ha) Hal].
  destruct (run op now app) as [res app'] eqn:Hrun. cbn [snd].
  pose proof Hrun as Heff.
  apply run_effect in Heff
    as [(-> & _ & d & Hdb & _ & _ & Hstored & Hfresh) | (_ & Hdata & Hview & _)].
  2: { unfold allDerivedFresh, dashboardFresh, alertListFresh.
       by rewrite Hdata, Hview. }
  unfold alertListFresh in Hal.
  destruct op; simpl in Hstored, Hfresh; destruct Hstored as [_ Hdata].
  - destruct Hfresh as (Hd & _ & Halerts). split; [done|].
    unfold alertListFresh. rewrite Halerts, Hal. f_equal.
    apply generateAlerts_permits. by rewrite Hdata.
  - destruct Hfresh as (Hd & _ & Halerts). split; [done|].
    unfold alertListFresh. rewrite Halerts, Hal. f_equal.
    apply generateAlerts_permits. by rewrite Hdata.
  - destruct Hfresh as (Hd & _ & Halerts). split; [done|].
    unfold alertListFresh. rewrite Halerts, Hal. f_equal.
    apply generateAlerts_permits. by rewrite Hdata.
  - destruct Hfresh as (Halerts & _). split; [|done].
    simpl in Hrun.
    apply bind_cases in Hrun as [(e & Hadd & _) | (k & app1 & Hadd & Hrest)].
    { apply addItem_Thrown in Hadd as (_ & Hsame & _). rewrite Hsame in Hdata.
      apply (f_equal (fun x => length (permits x))) in Hdata.
      cbn [permits] in Hdata. rewrite length_app in Hdata. simpl in Hdata. lia. }
    apply addItem_Returned in Hadd as (d' & _ & _ & _ & _ & ->).
    match type of Hrest with
    | (set_data (fun d => mkData _ _ _ (_ ++ [?item]) _) ≫= _) ?app1 = _ =>
        destruct (addPermit_rest_counts now item app1)
          as (app'' & Hrun' & Hg' & Hm' & Ht' & Ha')
    end.
    rewrite Hrun' in Hrest. injection Hrest as <-. cbn [view] in Hg', Hm', Ht', Ha'.
    unfold dashboardFresh. rewrite Hg', Hm', Ht', Ha', Hg, Hm, Ht, Ha, Hdata.
    cbn [firearms maintenance training].
    repeat split. f_equal. symmetry.
    by apply (calculateAlerts_snoc_blank _ _ (permitAt now)).
Qed.

End Freshness.

(** ** Navigation: proofs *)

Section NavigationFacts.
Context `{Host} {R : Reading}.

(** X6: showing the dashboard and the compliance section, in either order,
    makes the four counts of the dashboard and the alert list those of the
    snapshot at that time, and changes neither the snapshot nor the
    database. *)
Theorem navigation_makes_fresh (now : Z) (app : App) :
  let shown1 :=
    (updateSection "compliance" now (updateSection "dashboard" now app).2).2 in
  let shown2 :=
    (updateSection "dashboard" now (updateSection "compliance" now app).2).2 in
  allDerivedFresh shown1 now /\ data shown1 = data app /\ db shown1 = db app /\
  allDerivedFresh shown2 now /\ data shown2 = data app /\ db shown2 = db app.
Proof.
  cbv zeta.
  change (updateSection "dashboard" now) with (updateDashboard now).
  change (updateSection "compliance" now) with (updateCompliance now).
  destruct (updateDashboard_effect now app)
    as (a1 & -> & (Hg & Hm & Ht & Ha) & Hdb1 & Hdata1 & _).
  cbn [snd].
  destruct (updateCompliance_effect now a1)
    as (a2 & -> & Hal & _ & _ & Hdb2 & Hdata2 & _ & _ & Hg2 & Hm2 & Ht2 & Ha2 & _).
  destruct (updateCompliance_effect now app)
    as (b1 & -> & Hbl & _ & _ & Hdbb1 & Hdatab1 & _ & _ & _ & _ & _ & _ & _).
  cbn [snd].
  destruct (updateDashboard_effect now b1)
    as (b2 & -> & Hbd & Hdbb2 & Hdatab2 & _ & _ & _ & _ & _ & _ & Hbal & _).
  cbn [snd].
  assert (allDerivedFresh a2 now) as F1.
  { split; [|done]. unfold dashboardFresh. rewrite Hg2, Hm2, Ht2, Ha2, Hdata2.
    by repeat split. }
  assert (allDerivedFresh b2 now) as F2.
  { split; [done|]. unfold alertListFresh in *. by rewrite Hbal, Hdatab2. }
  repeat split; first [apply F1 | apply F2 | congruence].
Qed.

(** X7: [showSection] looks the section up before it sets the current
    tab: without an element of that name it throws and the current tab
    stays. With the element, and a name other than the five that
    [updateSection] knows, it sets the current tab and leaves everything
    else as it is; this is what [showSettings] does, with the name
    [export]. *)
Theorem showSection_outcome
    (hasElement : string -> bool) (sectionName : string) (now : Z) (app : App) :
  (hasElement sectionName = false ->
   showSection hasElement sectionName now app = (Thrown TypeError, app)) /\
  (hasElement sectionName = true ->
   sectionName ∉ ["dashboard"; "inventory"; "maintenance"; "training"; "compliance"] ->
   showSection hasElement sectionName now app =
     (Returned tt, mkApp (db app) sectionName (data app) (view app) (log app))) /\
  showSettings hasElement now app =
    (if hasElement "export"
     then (Returned tt, mkApp (db app) "export" (data app) (view app) (log app))
     else (Thrown TypeError, app)).
Proof.
  unfold showSettings, showSection. split; [by intros ->|]. split.
  - intros -> Hnot. unfold mbind at 1, M_bind at 1, modify, updateSection.
    repeat match goal with
           | |- context [String.eqb sectionName ?s] =>
               destruct (String.eqb_spec sectionName s) as [->|_];
                 [destruct Hnot; set_solver|]
           end.
    reflexivity.
  - by destruct (hasElement "export").
Qed.

End NavigationFacts.

(** ** Startup: proofs *)

Section Startup.
Context `{Host} {R : Reading}.

(** X8: startup on an open database reads the stores in the order
    firearms, maintenance, training, permits, settings, and stops at the
    first store that cannot be read: a collection holds the records of its
    store, in ascending order of their keys, when that store and all stores
    before it could be read, and is empty otherwise; the settings are those
    of the row with the least key of the settings store when all five
    stores could be read and there is a row, and the default settings
    otherwise. In a database whose rows are stored under their ids, the ids
    of each loaded collection ascend. *)
Theorem init_loads (form0 : FirearmForm) (d : IDBDatabase) (now : Z) :
  let app' := (init (Request (Some d)) now (constructor form0)).2 in
  let r1 := negb (failing d "firearms") in
  let r2 := r1 && negb (failing d "maintenance") in
  let r3 := r2 && negb (failing d "training") in
  let r4 := r3 && negb (failing d "permits") in
  let r5 := r4 && negb (failing d "settings") in
  (db app' = Some d /\
   firearms (data app') = (if r1 then recordsOf Z.leb (firearmsRows d) else []) /\
   maintenance (data app') = (if r2 then recordsOf Z.leb (maintenanceRows d) else []) /\
   training (data app') = (if r3 then recordsOf Z.leb (trainingRows d) else []) /\
   permits (data app') = (if r4 then recordsOf Z.leb (permitsRows d) else []) /\
   settings (data app') =
     (if r5 then
        match recordsOf String.leb (settingsRows d) with
        | row :: _ => value row
        | [] => defaultSettings
        end
      else defaultSettings)) /\
  (keyedDB d ->
   Sorted Z.le (Firearm.id <$> firearms (data app')) /\
   Sorted Z.le (Maintenance.id <$> maintenance (data app')) /\
   Sorted Z.le (Training.id <$> training (data app')) /\
   Sorted Z.le (Permit.id <$> permits (data app'))).
Proof.
  cbv zeta. split; [exact (init_data form0 d now)|].
  intros (Kf & Km & Kt & Kp).
  destruct (init_data form0 d now) as (_ & -> & -> & -> & -> & _).
  repeat split;
    match goal with
    | |- context [if ?b then _ else _] => destruct b
    end; first [ by apply recordsOf_ascending | constructor ].
Qed.

(** X9: startup renders no list, however it goes: the lists and the
    compliance text wait until the user shows their section, and the form
    is left alone. When [indexedDB.open] gives a request, startup returns
    with the four counts of the dashboard written from the snapshot that it
    has loaded; when [open] throws, startup throws as well and has not
    written the counts. *)
Theorem init_renders_dashboard_only
    (form0 : FirearmForm) (indexedDB : OpenAttempt) (now : Z) :
  let app' := (init indexedDB now (constructor form0)).2 in
  (firearmList (view app') = None /\
   maintenanceList (view app') = None /\
   trainingList (view app') = None /\
   permitList (view app') = None /\
   alertList (view app') = None /\
   complianceInfo (view app') = None /\
   form (view app') = form0) /\
  match indexedDB with
  | Request _ =>
      (init indexedDB now (constructor form0)).1 = Returned tt /\
      dashboardFresh app' now
  | OpenThrows e =>
      (init indexedDB now (constructor form0)).1 = Thrown e /\
      gunCount (view app') = None /\
      maintenanceCount (view app') = None /\
      trainingCount (view app') = None /\
      alertCount (view app') = None
  end.
Proof.
  cbv zeta. unfold dashboardFresh. destruct indexedDB as [[d|]|e].
  - run_M init. cbv [initDB loadData updateDashboard constructor getAll staticView].
    run_M init.
    cbn [storeName rows keyLeb firearmsOS maintenanceOS trainingOS permitsOS settingsOS].
    repeat (match goal with
            | |- context [failing d ?name] => destruct (failing d name)
            end; run_M init).
    all: try match goal with
             | |- context [match ?l with [] => _ | _ :: _ => _ end] => destruct l
             end.
    all: run_M init; by repeat split.
  - by repeat split.
  - by repeat split.
Qed.

End Startup.

(** ** The alert engine over time *)

Lemma length_filter_mono {A} (f g : A -> bool) (l : list A) :
  (forall x, f x = true -> g x = true) ->
  (length (List.filter f l) <= length (List.filter g l))%nat.
Proof.
  intros Hfg. induction l as [|x l IH]; simpl; [done|].
  destruct (f x) eqn:Hf.
  - rewrite (Hfg x Hf). simpl. lia.
  - destruct (g x); simpl; lia.
Qed.

Section AlertsOverTime.
Context `{Host} {R : Reading}.

(** Later, fewer days are left. *)
Lemma daysUntil_later (permit : Permit.t) (now now' : Z) (q : Q) :
  (now <= now')%Z ->
  daysUntil permit now = Num q ->
  exists q', daysUntil permit now' = Num q' /\ (q' <= q)%Q.
Proof.
  intros Hle. unfold daysUntil.
  destruct (Date_parse (Permit.expirationDate permit)) as [|e]; simpl; [done|].
  intros [= <-]. eexists. split; [reflexivity|].
  unfold Qdiv. apply Qmult_le_compat_r.
  - rewrite Zle_Qle in Hle. unfold Date_at. lra.
  - apply Qinv_le_0_compat. done.
Qed.

(** X10: time only adds alerts and raises them. For a snapshot that
    stays as it is, a permit that is expiring soon stays so at every later
    time, a permit with a high-priority alert keeps a high-priority alert,
    and the alert count of the dashboard does not go down. *)
Theorem alerts_persist (now now' : Z) :
  (now <= now')%Z ->
  (forall permit,
     isPermitExpiringSoon permit now = true ->
     isPermitExpiringSoon permit now' = true) /\
  (forall permit alert,
     alertsOf permit now = [alert] -> Alert.priority alert = "high" ->
     exists alert',
       alertsOf permit now' = [alert'] /\ Alert.priority alert' = "high") /\
  (forall data, (calculateAlerts data now <= calculateAlerts data now')%nat).
Proof.
  intros Hle.
  assert (forall permit,
            isPermitExpiringSoon permit now = true ->
            isPermitExpiringSoon permit now' = true) as Hsoon.
  { intros permit. rewrite !isPermitExpiringSoon_cases, !andb_true_iff.
    intros [Ht Hq]. split; [done|].
    destruct (daysUntil permit now) as [|q] eqn:Hd; [done|].
    destruct (daysUntil_later permit now now' q Hle Hd) as (q' & -> & Hq').
    apply num_le_Num. apply num_le_Num in Hq. by eapply Qle_trans. }
  split; [done|]. split.
  - intros permit alert. rewrite !alertsOf_cases.
    destruct (truthy (Permit.expirationDate permit)); [|done].
    destruct (daysUntil permit now) as [|q] eqn:Hd; [done|].
    destruct (daysUntil_later permit now now' q Hle Hd) as (q' & -> & Hq').
    destruct (Qle_bool q 30) eqn:H30.
    + intros _ _. apply Qle_bool_iff in H30.
      assert (Qle_bool q' 30 = true) as ->.
      { apply Qle_bool_iff. by eapply Qle_trans. }
      by eexists.
    + destruct (Qle_bool q 90); [|done]. by intros [= <-].
  - intros data. rewrite !calculateAlerts_filter. by apply length_filter_mono.
Qed.

(** X11: every alert of the list belongs to a permit of the snapshot that
    has an expiration date, and the number of days that it tells is the
    days until expiration rounded up: at most 30 in a high-priority alert,
    from 31 to 90 in a medium-priority alert. *)
Theorem alert_days_in_tier (data : Data) (now : Z) (alert : Alert.t) :
  In alert (generateAlerts data now) ->
  exists permit q,
    In permit (permits data) /\
    Permit.expirationDate permit <> "" /\
    daysUntil permit now = Num q /\
    (inject_Z (Qceiling q - 1) < q)%Q /\ (q <= inject_Z (Qceiling q))%Q /\
    ((alert = highAlert permit (Qceiling q) /\ (Qceiling q <= 30)%Z) \/
     (alert = mediumAlert permit (Qceiling q) /\ (31 <= Qceiling q <= 90)%Z)).
Proof.
  rewrite generateAlerts_flat_map, in_flat_map.
  intros (permit & Hin & Halert). rewrite alertsOf_cases in Halert.
  destruct (truthy (Permit.expirationDate permit)) eqn:Ht; [|done].
  apply truthy_true in Ht.
  destruct (daysUntil permit now) as [|q] eqn:Hd; [done|].
  exists permit, q. split; [done|]. split; [done|]. split; [done|].
  split; [apply Qceiling_lt|]. split; [apply Qle_ceiling|].
  destruct (Qle_bool q 30) eqn:H30.
  - left. destruct Halert as [<-|[]]. split; [done|].
    apply Qle_bool_iff, Qceiling_resp_le in H30. exact H30.
  - destruct (Qle_bool q 90) eqn:H90; [|done].
    right. destruct Halert as [<-|[]]. split; [done|]. split.
    + assert (30 < Qceiling q)%Z; [|lia]. rewrite Zlt_Qlt.
      eapply Qlt_le_trans; [|apply Qle_ceiling].
      apply Qnot_le_lt. intros Hq. apply Qle_bool_iff in Hq.
      change (Qle_bool q 30 = true) in Hq. congruence.
    + apply Qle_bool_iff, Qceiling_resp_le in H90. exact H90.
Qed.

End AlertsOverTime.

(** ** The inventory report *)

Section InventoryReport.
Context `{Host} {R : Reading}.

(** X12: the inventory report lists one item per firearm, in order, with
    exactly the properties [makeModel], [serial], [caliber], [type],
    [purchaseDate] and [price], each the firearm's own: the price stands as
    it is, also when it is empty; [id], [notes] and [createdAt] are not in
    it. *)
Theorem exportInventory_projection (data : Data) (now : Z) :
  let doc := document (exportInventory data now) in
  keys doc = ["type"; "generated"; "firearms"] /\
  member "type" doc = Some (JString "Inventory Report") /\
  member "generated" doc = Some (JString (toISOString now)) /\
  exists items : list json,
    member "firearms" doc = Some (JArray items) /\
    Forall2
      (fun gun item =>
         keys item = ["makeModel"; "serial"; "caliber"; "type"; "purchaseDate";
                      "price"] /\
         member "makeModel" item = Some (JString (Firearm.makeModel gun)) /\
         member "serial" item = Some (JString (Firearm.serial gun)) /\
         member "caliber" item = Some (JString (Firearm.caliber gun)) /\
         member "type" item = Some (JString (Firearm.type gun)) /\
         member "purchaseDate" item = Some (JString (Firearm.purchaseDate gun)) /\
         member "price" item = Some (JString (Firearm.price gun)) /\
         member "id" item = None /\
         member "notes" item = None /\
         member "createdAt" item = None)
      (firearms data) items.
Proof.
  cbv zeta. repeat split. eexists. split; [reflexivity|].
  induction (firearms data) as [|gun guns IH]; simpl; constructor; [|exact IH].
  by repeat split.
Qed.

End InventoryReport.

(** ** The service worker: proofs *)

Section ServiceWorkerFacts.
Import ServiceWorker.
Variable Response : Type.
Variable ok : Response -> bool.

Lemma fold_insert_other (rs : list (string * Response)) (c : gmap string Response)
    (url : string) :
  url ∉ rs.*1 ->
  fold_left (fun c' '(u, r) => <[u := r]> c') rs c !! url = c !! url.
Proof.
  revert c. induction rs as [|[u r] rs IH]; intros c Hnot; simpl; [done|].
  simpl in Hnot. apply not_elem_of_cons in Hnot as [Hne Hnot].
  rewrite IH; [|done]. by rewrite lookup_insert_ne.
Qed.

(** What [addAll] has stored under the URLs, when they are pairwise
    distinct: the responses of the network. *)
Lemma addAll_lookup (net : Network Response) (urls : list string)
    (c0 c : gmap string Response) :
  NoDup urls ->
  addAll Response ok net urls c0 = Some c ->
  forall url, url ∈ urls ->
    exists r, net url = Some r /\ ok r = true /\ c !! url = Some r.
Proof.
  unfold addAll. revert c0. induction urls as [|u us IH]; intros c0 Hnd Hadd url Hin.
  { by apply elem_of_nil in Hin. }
  apply NoDup_cons in Hnd as [Hu Hnd]. simpl in Hadd.
  destruct (net u) as [r|] eqn:Hnet; [|done]. simpl in Hadd.
  destruct (ok r) eqn:Hok; [|done]. simpl in Hadd.
  destruct (mapM _ us) as [rs|] eqn:Hrs; [|done].
  simpl in Hadd. injection Hadd as <-.
  assert (rs.*1 = us) as Hfst.
  { clear -Hrs. revert rs Hrs. induction us as [|v vs IHv]; intros rs; simpl.
    - by intros [= <-].
    - destruct (net v) as [rv|]; [|done]. simpl. destruct (ok rv); [|done]. simpl.
      destruct (mapM _ vs) as [rs'|]; [|done]. simpl.
      intros [= <-]. simpl. f_equal. by apply IHv. }
  apply elem_of_cons in Hin as [->|Hin].
  - exists r. split; [done|]. split; [done|].
    rewrite fold_insert_other; [|by rewrite Hfst]. apply lookup_insert_eq.
  - apply (IH (<[u := r]> c0)); done.
Qed.

Lemma addAll_is_Some (net : Network Response) (urls : list string)
    (c0 : gmap string Response) :
  is_Some (addAll Response ok net urls c0) <->
  forall url, url ∈ urls -> exists r, net url = Some r /\ ok r = true.
Proof.
  unfold addAll. split.
  - induction urls as [|u us IH]; intros [c Hc] url Hin.
    { by apply elem_of_nil in Hin. }
    simpl in Hc. destruct (net u) as [r|] eqn:Hnet; [|done]. simpl in Hc.
    destruct (ok r) eqn:Hok; [|done]. simpl in Hc.
    destruct (mapM _ us) as [rs|] eqn:Hrs; [|done].
    apply elem_of_cons in Hin as [->|Hin]; [by eauto|].
    apply IH; [|done]. by eexists.
  - induction urls as [|u us IH]; intros Hall; [by eexists|].
    destruct (Hall u) as (r & Hnet & Hok); [by left|].
    destruct IH as [c Hc].
    { intros url Hin. apply Hall. by right. }
    simpl. rewrite Hnet. simpl. rewrite Hok. simpl.
    destruct (mapM _ us) as [rs|]; [|done]. by eexists.
Qed.

Lemma caches_match_open (name url : string) (caches : CacheStorage Response) :
  caches_match Response url (caches_open Response name caches) =
  caches_match Response url caches.
Proof.
  induction caches as [|[n c] rest IH]; simpl.
  - by rewrite lookup_empty.
  - destruct (String.eqb n name); simpl; [done|]. by rewrite IH.
Qed.

(** Once the cache of that name holds a response for the URL, some cache
    answers the request. *)
Lemma caches_match_put (name url : string) (c : gmap string Response)
    (caches : CacheStorage Response) :
  is_Some (c !! url) ->
  is_Some (caches_match Response url
             (caches_put Response name c (caches_open Response name caches))).
Proof.
  intros [r Hr]. induction caches as [|[n c0] rest IH]; simpl.
  - rewrite String.eqb_refl. simpl. rewrite Hr. by eexists.
  - destruct (String.eqb n name) eqn:Hn; simpl; rewrite Hn; simpl.
    + rewrite Hr. by eexists.
    + destruct (c0 !! url); [by eexists|done].
Qed.

Lemma urlsToCache_NoDup : NoDup urlsToCache.
Proof. by apply (bool_decide_unpack _); vm_compute. Qed.

(** X13: once the worker is installed, every request for one of the four
    shell URLs is answered from a cache, whatever the network does then;
    when the origin had no cache before, the answer is the response that
    the network gave at installation, and that response was [ok]. *)
Theorem worker_serves_shell_offline
    (net : Network Response) (caches caches' : CacheStorage Response) :
  oninstall Response ok net caches = (true, caches') ->
  forall url, url ∈ urlsToCache ->
    forall net' : Network Response,
      is_Some (onfetch Response net' caches' url) /\
      (caches = [] ->
       exists r, net url = Some r /\ ok r = true /\
         onfetch Response net' caches' url = Some r).
Proof.
  unfold oninstall.
  destruct (addAll Response ok net urlsToCache _) as [c|] eqn:Hadd; [|done].
  intros [= <-] url Hin net'.
  destruct (addAll_lookup net _ _ _ urlsToCache_NoDup Hadd url Hin)
    as (r & Hnet & Hok & Hc).
  split.
  - unfold onfetch.
    destruct (caches_match_put CACHE_NAME url c caches) as [r' ->]; by eexists.
  - intros ->. exists r. split; [done|]. split; [done|].
    unfold onfetch. simpl. by rewrite Hc.
Qed.

(** X14: the worker is installed exactly when the network gives an [ok]
    response for each of the four shell URLs; when it is not, no response
    has been stored: every request is answered as it would have been before
    the installation was tried. A request that no cache answers goes to the
    network, and its response is not stored. *)
Theorem worker_install_all_or_nothing
    (net : Network Response) (caches : CacheStorage Response) :
  ((oninstall Response ok net caches).1 = true <->
   forall url, url ∈ urlsToCache -> exists r, net url = Some r /\ ok r = true) /\
  ((oninstall Response ok net caches).1 = false ->
   forall (net' : Network Response) url,
     onfetch Response net' (oninstall Response ok net caches).2 url =
     onfetch Response net' caches url) /\
  (forall (net' : Network Response) url,
     caches_match Response url caches = None ->
     onfetch Response net' caches url = net' url).
Proof.
  unfold oninstall. split; [|split].
  - rewrite <- (addAll_is_Some net urlsToCache
                  (cache_of Response CACHE_NAME (caches_open Response CACHE_NAME caches))).
    destruct (addAll Response ok net urlsToCache _) as [c|]; simpl.
    + split; [by eexists|done].
    + split; [done|]. by intros [? ?].
  - destruct (addAll Response ok net urlsToCache _) as [c|]; simpl; [done|].
    intros _ net' url. unfold onfetch. by rewrite caches_match_open.
  - intros net' url Hnone. unfold onfetch. by rewrite Hnone.
Qed.

End ServiceWorkerFacts.

(** ** The properties at the sample data *)

Lemma create_outcome_witness :
  (run (H := Iso8601.host) (R := constDropped) AddPermit sampleNow texasApp).1 =
    match db texasApp with
    | None => Thrown TypeError
    | Some d =>
        if failing d (storeOf AddPermit) then Thrown UnknownError
        else if idTaken AddPermit sampleNow d then Thrown ConstraintError
        else ending (R := constDropped) AddPermit texasApp
    end /\
  (AddPermit <> AddPermit -> ending (R := constDropped) AddPermit texasApp = Returned tt).
Proof.
  apply (create_outcome (H := Iso8601.host) (R := constDropped) AddPermit sampleNow
           texasApp).
  exact I.
Defined.

Lemma create_throw_effect_witness :
  (db (run (H := Iso8601.host) (R := constDropped) AddPermit sampleNow texasApp).2 =
     db texasApp /\
   data (run (H := Iso8601.host) (R := constDropped) AddPermit sampleNow texasApp).2 =
     data texasApp /\
   view (run (H := Iso8601.host) (R := constDropped) AddPermit sampleNow texasApp).2 =
     view texasApp) \/
  (AddPermit = AddPermit /\
   complianceInfoOf (Reading := constDropped) (settings (data texasApp)) =
     Thrown TypeError /\
   exists d, db texasApp = Some d /\
     stored (H := Iso8601.host) AddPermit sampleNow texasApp d
       (run (H := Iso8601.host) (R := constDropped) AddPermit sampleNow texasApp).2).
Proof.
  apply (create_throw_effect (H := Iso8601.host) (R := constDropped) AddPermit
           sampleNow texasApp _ TypeError).
  vm_compute. reflexivity.
Defined.

Lemma create_then_getAll_witness :
  exists before after,
    (getAll firearmsOS loadedApp).1 = Returned before /\
    (getAll firearmsOS
       (run (H := Iso8601.host) (R := entryRenamed) SaveFirearm sampleNow loadedApp).2).1 =
      Returned after /\
    after ≡ₚ firearmOfForm (H := Iso8601.host) (form (view loadedApp)) sampleNow :: before /\
    last (firearms
            (data (run (H := Iso8601.host) (R := entryRenamed) SaveFirearm sampleNow
                     loadedApp).2)) =
      Some (firearmOfForm (H := Iso8601.host) (form (view loadedApp)) sampleNow).
Proof.
  apply (create_then_getAll (H := Iso8601.host) (R := entryRenamed) SaveFirearm sampleNow loadedApp
           (run (H := Iso8601.host) (R := entryRenamed) SaveFirearm sampleNow loadedApp).2).
  - vm_compute. reflexivity.
  - simpl. discriminate.
Defined.

Lemma saveFirearm_clears_form_witness :
  form (view (saveFirearm (H := Iso8601.host) sampleNow loadedApp).2) = emptyForm /\
  modalShown (view (saveFirearm (H := Iso8601.host) sampleNow loadedApp).2) = false /\
  forall now', exists app'',
    saveFirearm (H := Iso8601.host) now'
      (saveFirearm (H := Iso8601.host) sampleNow loadedApp).2 = (Returned tt, app'') /\
    db app'' = db (saveFirearm (H := Iso8601.host) sampleNow loadedApp).2 /\
    data app'' = data (saveFirearm (H := Iso8601.host) sampleNow loadedApp).2 /\
    log app'' = log (saveFirearm (H := Iso8601.host) sampleNow loadedApp).2 ++
                [WindowAlert "Make/Model is required"].
Proof.
  apply (saveFirearm_clears_form (H := Iso8601.host) sampleNow loadedApp
           (saveFirearm (H := Iso8601.host) sampleNow loadedApp).2).
  - vm_compute. reflexivity.
  - discriminate.
Defined.

Lemma create_keeps_fresh_witness :
  allDerivedFresh (H := Iso8601.host)
    (run (H := Iso8601.host) (R := entryRenamed) AddPermit sampleNow shownApp).2 sampleNow.
Proof.
  apply (create_keeps_fresh (H := Iso8601.host) (R := entryRenamed) AddPermit sampleNow shownApp).
  repeat split; vm_compute; reflexivity.
Defined.

Lemma alerts_persist_witness :
  (forall permit,
     isPermitExpiringSoon (H := Iso8601.host) permit sampleNow = true ->
     isPermitExpiringSoon (H := Iso8601.host) permit (sampleNow + 86400000) = true) /\
  (forall permit alert,
     alertsOf (H := Iso8601.host) permit sampleNow = [alert] ->
     Alert.priority alert = "high" ->
     exists alert',
       alertsOf (H := Iso8601.host) permit (sampleNow + 86400000) = [alert'] /\
       Alert.priority alert' = "high") /\
  (forall data,
     (calculateAlerts (H := Iso8601.host) data sampleNow <=
      calculateAlerts (H := Iso8601.host) data (sampleNow + 86400000))%nat).
Proof.
  apply (alerts_persist (H := Iso8601.host) sampleNow (sampleNow + 86400000)).
  unfold sampleNow. lia.
Defined.

Lemma alert_days_in_tier_witness :
  exists permit q,
    In permit (permits (onlyPermits [samplePermit "2026-11-11"])) /\
    Permit.expirationDate permit <> "" /\
    daysUntil (H := Iso8601.host) permit sampleNow = Num q /\
    (inject_Z (Qceiling q - 1) < q)%Q /\ (q <= inject_Z (Qceiling q))%Q /\
    ((highAlert (samplePermit "2026-11-11") 10 = highAlert permit (Qceiling q) /\
      (Qceiling q <= 30)%Z) \/
     (highAlert (samplePermit "2026-11-11") 10 = mediumAlert permit (Qceiling q) /\
      (31 <= Qceiling q <= 90)%Z)).
Proof.
  apply (alert_days_in_tier (H := Iso8601.host)
           (onlyPermits [samplePermit "2026-11-11"]) sampleNow
           (highAlert (samplePermit "2026-11-11") 10)).
  left. vm_compute. reflexivity.
Defined.

Lemma worker_serves_shell_offline_witness :
  is_Some (ServiceWorker.onfetch string (fun _ => None)
             (ServiceWorker.oninstall string (fun _ => true) Some []).2 "/app.js") /\
  (([] : ServiceWorker.CacheStorage string) = [] ->
   exists r, Some "/app.js" = Some r /\ true = true /\
     ServiceWorker.onfetch string (fun _ => None)
       (ServiceWorker.oninstall string (fun _ => true) Some []).2 "/app.js" = Some r).
Proof.
  apply (worker_serves_shell_offline string (fun _ => true) Some []
           (ServiceWorker.oninstall string (fun _ => true) Some []).2).
  - vm_compute. reflexivity.
  - unfold ServiceWorker.urlsToCache. do 2 right. left.
Defined.

Lemma ids_assigned_once_and_distinct_witness :
  distinctIds
    (data (run (H := Iso8601.host) (R := entryRenamed) AddMaintenance sampleNow freshApp).2) /\
  forall (op : Mutation) (now : Z),
    let app' :=
      (run (H := Iso8601.host) (R := entryRenamed) op now
         (run (H := Iso8601.host) (R := entryRenamed) AddMaintenance sampleNow freshApp).2).2 in
    (data app' =
       data (run (H := Iso8601.host) (R := entryRenamed) AddMaintenance sampleNow freshApp).2 \/
     appended op now
       (run (H := Iso8601.host) (R := entryRenamed) AddMaintenance sampleNow freshApp).2 app') /\
    distinctIds (data app') /\
    (forall d d',
       db (run (H := Iso8601.host) (R := entryRenamed) AddMaintenance sampleNow freshApp).2 =
         Some d ->
       db app' = Some d' -> keepsRows d d').
Proof.
  apply (ids_assigned_once_and_distinct (H := Iso8601.host) (R := entryRenamed)).
  apply reachable_run. unfold freshApp.
  apply (reachable_init emptyForm (Request (Some emptyDB)) sampleNow).
  intros d [= <-]. repeat split; intros k x Hk; cbn in Hk; by rewrite lookup_empty in Hk.
Defined.

Lemma reachable_distinctIds_witness :
  distinctIds
    (data (run (H := Iso8601.host) (R := entryRenamed) AddMaintenance sampleNow
             (run (H := Iso8601.host) (R := entryRenamed) AddMaintenance sampleNow freshApp).2).2).
Proof.
  apply (reachable_distinctIds (H := Iso8601.host) (R := entryRenamed)).
  do 2 apply reachable_run. unfold freshApp.
  apply (reachable_init emptyForm (Request (Some emptyDB)) sampleNow).
  intros d [= <-]. repeat split; intros k x Hk; cbn in Hk; by rewrite lookup_empty in Hk.
Defined.

(** ** Restart *)

Section Restart.
Context `{Host} {R : Reading}.







End Restart.


(** ** The compliance section *)

Section ComplianceSection.
Context `{Host} {R : Reading}.

Lemma alertsOf_nil (permit : Permit.t) (now : Z) :
  isPermitExpiringSoon permit now = true <-> alertsOf permit now <> [].
Proof.
  pose proof (length_alertsOf permit now) as Hlen.
  destruct (isPermitExpiringSoon permit now); destruct (alertsOf permit now);
    simpl in Hlen; split; congruence.
Qed.

(** X17: the compliance section shows every permit of the snapshot, in
    order, and the alerts; a permit carries the badge of an expiring permit
    exactly when the alert list has an alert for it, so that there are as
    many such badges as alerts. *)
Theorem compliance_badges_match_alerts (now : Z) (app : App) :
  let app' := (updateCompliance now app).2 in
  exists rows alerts,
    permitList (view app') = Some rows /\
    alertList (view app') = Some alerts /\
    map fst rows = permits (data app) /\
    alerts = flat_map (fun row => alertsOf (fst row) now) rows /\
    (forall permit badge,
       In (permit, badge) rows -> (badge = true <-> alertsOf permit now <> [])) /\
    length (List.filter snd rows) = length alerts.
Proof.
  cbv zeta.
  destruct (updateCompliance_effect now app) as (app' & -> & Hal & Hpl & _ & _ & Hdata & _).
  cbn [snd]. unfold alertListFresh in Hal. rewrite Hdata in Hal, Hpl.
  eexists _, _. split; [exact Hpl|]. split; [exact Hal|].
  clear Hal Hpl Hdata. split; [|split; [|split]].
  - rewrite map_map. cbn [fst]. apply map_id.
  - rewrite generateAlerts_flat_map.
    induction (permits (data app)) as [|p l IH]; [done|].
    cbn [flat_map map fst]. by rewrite IH.
  - intros permit badge [p [[= <- <-] _]]%in_map_iff. apply alertsOf_nil.
  - rewrite generateAlerts_flat_map.
    rewrite (length_flat_map_filter _ (fun p => isPermitExpiringSoon p now))
      by (intros p; apply length_alertsOf).
    induction (permits (data app)) as [|p l IH]; simpl; [done|].
    destruct (isPermitExpiringSoon p now); simpl; by rewrite IH.
Qed.

End ComplianceSection.

(** ** The create operations and the alerts *)

Section CreateAndAlerts.
Context `{Host} {R : Reading}.

(** X18: no create operation changes the alerts, at any time: the permit
    that [addPermit] stores has no expiration date, and the other
    operations leave the permits alone. *)
Theorem create_never_alerts (op : Mutation) (now now' : Z) (app : App) :
  generateAlerts (data (run op now app).2) now' = generateAlerts (data app) now' /\
  calculateAlerts (data (run op now app).2) now' = calculateAlerts (data app) now'.
Proof.
  destruct (run op now app) as [res app'] eqn:Hrun. cbn [snd].
  apply run_effect in Hrun
    as [(_ & _ & d & _ & _ & _ & Hstored & _) | (_ & Hdata & _)].
  2: by rewrite Hdata.
  destruct op; simpl in Hstored; destruct Hstored as [_ Hdata].
  1-3: split; [apply generateAlerts_permits | apply calculateAlerts_permits];
       by rewrite Hdata.
  split.
  - rewrite !generateAlerts_flat_map, Hdata. cbn [permits].
    rewrite flat_map_app. cbn [flat_map]. rewrite alertsOf_cases. cbn.
    by rewrite !app_nil_r.
  - apply (calculateAlerts_snoc_blank _ _ (permitAt now)); [done|]. by rewrite Hdata.
Qed.

End CreateAndAlerts.
